(** * letsdata-python-examples: the user data handlers, in Rocq

    A shallow embedding of the four interface implementations of the
    repository:

    - [DynamoDBTableItemReader.parseDynamoDBItem]
      (letsdata_interfaces/readers/dynamodb/DynamoDBTableItemReader.py),
    - [DynamoDBStreamsRecordReader.parseRecord]
      (letsdata_interfaces/readers/dynamodbstreams/DynamoDBStreamsRecordReader.py),
    - [SparkMapperInterface.to_map]
      (letsdata_interfaces/readers/spark/SparkMapperInterface.py),
    - [SparkReducerInterface.reducer]
      (letsdata_interfaces/readers/spark/SparkReducerInterface.py).

    Python values are a small universe of immutable values and mappings,
    exceptions are values of an error monad, the logger is a list of records
    returned beside the result, and the random identifier of the handlers'
    except branch is an argument of the handler. *)

From Stdlib Require Import ZArith Ascii.
From stdpp Require Import gmap strings list.

Set Warnings "-register-all".

(** ** Python values *)

Module Py.

(** The values the handlers can be handed for their duck-typed arguments:
    None, booleans, integers, strings and mappings with string keys. A mapping
    is an association list in insertion order, the order in which a dict is
    iterated. Lists are left out: [docId += ...] on a list-valued first key
    would extend that list in place, inside the caller's mapping, and the
    handlers' key attributes are scalars. *)
Inductive pyval : Type :=
| PNone
| PBool (b : bool)
| PInt (z : Z)
| PStr (s : string)
| PDict (d : list (string * pyval)).

(** [type(v).__name__] *)
Definition type_name (v : pyval) : string :=
  match v with
  | PNone => "NoneType"
  | PBool _ => "bool"
  | PInt _ => "int"
  | PStr _ => "str"
  | PDict _ => "dict"
  end.

(** The exceptions the modelled code can meet, each with its message. *)
Inductive exn : Type :=
| AttributeError (msg : string)
| TypeError (msg : string)
| IndexError (msg : string).

(** [str(ex)] *)
Definition str_of_exn (ex : exn) : string :=
  match ex with
  | AttributeError msg | TypeError msg | IndexError msg => msg
  end.

(** A computation returns a value or raises. *)
Inductive res (A : Type) : Type :=
| Ok (a : A)
| Raise (ex : exn).
Arguments Ok {A} a.
Arguments Raise {A} ex.

Definition bind {A B : Type} (c : res A) (k : A -> res B) : res B :=
  match c with
  | Ok a => k a
  | Raise ex => Raise ex
  end.

(** [for x in xs: s = body(s, x)], stopping at the first exception. *)
Fixpoint for_each {S A : Type} (body : S -> A -> res S) (xs : list A) (s : S)
  : res S :=
  match xs with
  | [] => Ok s
  | x :: xs' => bind (body s x) (for_each body xs')
  end.

(** The double quote character of CPython's concatenation message. *)
Definition dquote : string := String (ascii_of_nat 34) EmptyString.

(** [v.values()]: only a mapping has the attribute. *)
Definition values (v : pyval) : res (list pyval) :=
  match v with
  | PDict d => Ok (map snd d)
  | _ => Raise (AttributeError
                  ("'" +:+ type_name v +:+ "' object has no attribute 'values'"))
  end.

(** [lit + v] for a string literal [lit]. *)
Definition str_add (lit : string) (v : pyval) : res string :=
  match v with
  | PStr s => Ok (lit +:+ s)
  | _ => Raise (TypeError
                  ("can only concatenate str (not " +:+ dquote +:+ type_name v
                   +:+ dquote +:+ ") to str"))
  end.

(** [v += t] for a string [t]; the new value of [v]. *)
Definition iadd_str (v : pyval) (t : string) : res pyval :=
  match v with
  | PStr s => Ok (PStr (s +:+ t))
  | _ => Raise (TypeError
                  ("unsupported operand type(s) for +=: '" +:+ type_name v
                   +:+ "' and 'str'"))
  end.

(** [len(v)] *)
Definition len (v : pyval) : res Z :=
  match v with
  | PStr s => Ok (Z.of_nat (String.length s))
  | PDict d => Ok (Z.of_nat (length d))
  | _ => Raise (TypeError
                  ("object of type '" +:+ type_name v +:+ "' has no len()"))
  end.

(** [v is None or len(v) <= 0], with the short circuit of [or]. *)
Definition is_none_or_empty (v : pyval) : res bool :=
  match v with
  | PNone => Ok true
  | _ => bind (len v) (fun n => Ok (n <=? 0)%Z)
  end.

End Py.

Import Py.

Notation "'let!' x := c 'in' k" := (Py.bind c (fun x => k))
  (at level 10, x name, c at level 100, k at level 200).

(** ** Documents and results *)

Module Documents.

(** [DocumentType.Document], the only member the handlers use. *)
Inductive DocumentType : Type := DocumentType_Document.

(** Modelled from the spec: the class [Document]
    (letsdata_interfaces/documents/Document.py) is not among the sources. The
    fields are its six constructor arguments in call order: type, identifier,
    tag literal, partition key, metadata mapping, payload mapping. *)
Record Document : Type := mkDocument {
  doc_type : DocumentType;
  doc_identifier : pyval;
  doc_tag : string;
  doc_partitionKey : pyval;
  doc_metadata : pyval;
  doc_payload : pyval
}.

(** Modelled from the spec: the class [ErrorDoc]
    (letsdata_interfaces/documents/ErrorDoc.py) is not among the sources. The
    fields are its eight constructor arguments in call order: identifier,
    reason code, partition key, two mappings the handlers leave empty, the two
    slots that carry the context mapping, and the reason text. *)
Record ErrorDoc : Type := mkErrorDoc {
  err_identifier : pyval;
  err_reasonCode : string;
  err_partitionKey : pyval;
  err_mapping4 : pyval;
  err_mapping5 : pyval;
  err_context1 : pyval;
  err_context2 : pyval;
  err_reasonText : string
}.

(** Modelled from the spec: the class [SkipDoc]
    (letsdata_interfaces/documents/SkipDoc.py) is not among the sources; it has
    the shape of [ErrorDoc]. *)
Record SkipDoc : Type := mkSkipDoc {
  skip_identifier : pyval;
  skip_reasonCode : string;
  skip_partitionKey : pyval;
  skip_mapping4 : pyval;
  skip_mapping5 : pyval;
  skip_context1 : pyval;
  skip_context2 : pyval;
  skip_reasonText : string
}.

(** The second field of a result holds an object of one of the three classes. *)
Inductive AnyDoc : Type :=
| IsDocument (d : Document)
| IsSkipDoc (s : SkipDoc)
| IsErrorDoc (e : ErrorDoc).

(** Modelled from the spec: the class [ParseDocumentResult]
    (letsdata_interfaces/readers/model/ParseDocumentResult.py) is not among the
    sources. A triple of a reserved field, the document and the status tag. *)
Record ParseDocumentResult : Type := mkParseDocumentResult {
  reserved : pyval;
  document : AnyDoc;
  status : string
}.

(** The identifier of whichever document a result carries. *)
Definition identifier_of (d : AnyDoc) : pyval :=
  match d with
  | IsDocument d => doc_identifier d
  | IsSkipDoc s => skip_identifier s
  | IsErrorDoc e => err_identifier e
  end.

End Documents.

Import Documents.

(** ** The logger *)

Module Logging.

Inductive Level : Type := DEBUG | ERROR.

(** A call [logger.<level>(f"<text> - name: {value}, ...")]: the level, the
    text before the dash and the interpolated values by name. *)
Record LogRecord : Type := mkLogRecord {
  log_level : Level;
  log_text : string;
  log_values : list (string * pyval)
}.

End Logging.

Import Logging.

(** ** Identifier derivation

    Both handlers open with the same loop (DynamoDBTableItemReader.py lines
    66-71, DynamoDBStreamsRecordReader.py lines 60-65):
<<
    docId : str = None
    for keyValue in keys.values():
        if docId is None:
            docId = keyValue
        else:
            docId += ('|'+keyValue)
>>
*)

Definition docId_step (docId keyValue : pyval) : res pyval :=
  match docId with
  | PNone => Ok keyValue
  | _ => let! t := str_add "|" keyValue in iadd_str docId t
  end.

Definition derive_docId (keys : pyval) : res pyval :=
  let! vs := values keys in for_each docId_step vs PNone.

(** ** DynamoDBTableItemReader *)

Module DynamoDBTableItemReader.

(** The body of the [try] block of [parseDynamoDBItem]. *)
Definition parseDynamoDBItem_try (tableName segmentNumber keys item : pyval)
  : res (ParseDocumentResult * list LogRecord) :=
  let! docId := derive_docId keys in
  let! empty := is_none_or_empty item in
  if (empty : bool) then
    let error_doc :=
      mkErrorDoc docId "DDB_ERROR" docId (PDict []) (PDict [])
                 (PDict [("keys", keys)]) (PDict [("keys", keys)])
                 "empty record" in
    Ok (mkParseDocumentResult PNone (IsErrorDoc error_doc) "ERROR",
        [mkLogRecord ERROR "item is null, returning skip"
           [("tableName", tableName); ("segmentNumber", segmentNumber);
            ("keys", keys)]])
  else
    Ok (mkParseDocumentResult PNone
          (IsDocument (mkDocument DocumentType_Document docId "DOCUMENT" docId
                                  (PDict []) item))
          "SUCCESS",
        [mkLogRecord DEBUG "processing record, returning success"
           [("docId", docId)]]).

(** [parseDynamoDBItem(self, tableName, segmentNumber, keys, item)];
    [docIdUUID] is the string [str(uuid.uuid4())] evaluates to in the except
    branch of this call. *)
Definition parseDynamoDBItem (docIdUUID : string)
    (tableName segmentNumber keys item : pyval)
  : ParseDocumentResult * list LogRecord :=
  match parseDynamoDBItem_try tableName segmentNumber keys item with
  | Ok r => r
  | Raise ex =>
      let error_doc :=
        mkErrorDoc (PStr docIdUUID) "DDB_ERROR" (PStr docIdUUID)
                   (PDict []) (PDict [])
                   (PDict [("keys", keys)]) (PDict [("keys", keys)])
                   ("Exception - " +:+ str_of_exn ex) in
      (mkParseDocumentResult PNone (IsErrorDoc error_doc) "ERROR",
       [mkLogRecord DEBUG "Exception in reading the document"
          [("tableName", tableName); ("segmentNumber", segmentNumber);
           ("keys", keys); ("ex", PStr (str_of_exn ex))]])
  end.

End DynamoDBTableItemReader.

(** ** DynamoDBStreamsRecordReader *)

Module DynamoDBStreamsRecordReader.

(** The body of the [try] block of [parseRecord]. *)
Definition parseRecord_try
    (streamArn shardId eventId eventName identityPrincipalId identityType
     sequenceNumber sizeBytes streamViewType approximateCreationDateTime
     keys oldImage newImage : pyval)
  : res (ParseDocumentResult * list LogRecord) :=
  let! docId := derive_docId keys in
  let! empty := is_none_or_empty newImage in
  if (empty : bool) then
    let error_doc :=
      mkSkipDoc docId "DYNAMODBSTREAMS_SKIP" docId (PDict []) (PDict [])
                (PDict [("sequenceNumber", sequenceNumber)])
                (PDict [("sequenceNumber", sequenceNumber)])
                "delete record" in
    Ok (mkParseDocumentResult PNone (IsSkipDoc error_doc) "SKIP",
        [mkLogRecord ERROR "newImage is null, returning skip"
           [("streamArn", streamArn); ("shardId", shardId);
            ("eventName", eventName); ("sequenceNumber", sequenceNumber);
            ("approximateArrivalTimestamp", approximateCreationDateTime);
            ("keys", keys)]])
  else
    Ok (mkParseDocumentResult PNone
          (IsDocument (mkDocument DocumentType_Document docId "DOCUMENT" docId
                                  (PDict []) newImage))
          "SUCCESS",
        [mkLogRecord DEBUG "processing record"
           [("sequenceNumber", sequenceNumber)];
         mkLogRecord DEBUG "returning success" [("docId", docId)]]).

(** [parseRecord(self, streamArn, ..., keys, oldImage, newImage)];
    [docIdUUID] is the string [str(uuid.uuid4())] evaluates to in the except
    branch of this call. *)
Definition parseRecord (docIdUUID : string)
    (streamArn shardId eventId eventName identityPrincipalId identityType
     sequenceNumber sizeBytes streamViewType approximateCreationDateTime
     keys oldImage newImage : pyval)
  : ParseDocumentResult * list LogRecord :=
  match parseRecord_try streamArn shardId eventId eventName
          identityPrincipalId identityType sequenceNumber sizeBytes
          streamViewType approximateCreationDateTime keys oldImage newImage with
  | Ok r => r
  | Raise ex =>
      let error_doc :=
        mkErrorDoc (PStr docIdUUID) "KINESIS_ERROR" (PStr docIdUUID)
                   (PDict []) (PDict [])
                   (PDict [("sequenceNumber", sequenceNumber)])
                   (PDict [("sequenceNumber", sequenceNumber)])
                   ("Exception - " +:+ str_of_exn ex) in
      (mkParseDocumentResult PNone (IsErrorDoc error_doc) "ERROR",
       [mkLogRecord DEBUG "Exception in reading the document"
          [("streamArn", streamArn); ("shardId", shardId);
           ("eventName", eventName); ("sequenceNumber", sequenceNumber);
           ("approximateArrivalTimestamp", approximateCreationDateTime);
           ("keys", keys); ("ex", PStr (str_of_exn ex))]])
  end.

End DynamoDBStreamsRecordReader.

(** ** SparkMapperInterface: the [to_map] user-defined function *)

Module SparkMapperInterface.

(** [range(start, stop, step)] for a positive [step]; [fuel] bounds the number
    of elements, and [stop] of them are enough. *)
Fixpoint range_from (fuel start stop step : nat) : list nat :=
  match fuel with
  | O => []
  | S fuel' =>
      if start <? stop then start :: range_from fuel' (start + step) stop step
      else []
  end.

Definition range (start stop step : nat) : list nat :=
  range_from stop start stop step.

(** [arr[i]] on a list, for an index that is not negative. *)
Definition getitem (arr : list string) (i : nat) : res string :=
  match arr !! i with
  | Some x => Ok x
  | None => Raise (IndexError "list index out of range")
  end.

(** One turn of the loop: the three statements under [for]. The dict
    [map_value] is mutated in place, so when a statement raises, the entries
    stored by the earlier turns stay in it. *)
Definition to_map_body (arr : list string) (map_value : gmap string string)
    (i : nat) : res (gmap string string) :=
  let! key := getitem arr i in
  let! value := getitem arr (i + 1) in
  Ok (<[key := value]> map_value).

(** The [for] loop inside [try]: the dict it leaves, and the exception that
    ended it, if one did. *)
Fixpoint to_map_loop (arr : list string) (indices : list nat)
    (map_value : gmap string string) : gmap string string * option exn :=
  match indices with
  | [] => (map_value, None)
  | i :: indices' =>
      match to_map_body arr map_value i with
      | Ok map_value' => to_map_loop arr indices' map_value'
      | Raise err => (map_value, Some err)
      end
  end.

(** What [print("error: "+str(err)+", arr: "+str(arr))] is given. *)
Record Printed : Type := mkPrinted {
  printed_err : string;
  printed_arr : list string
}.

(** [to_map(arr)]: the dict returned and the lines printed. No exception
    leaves the function: the one [try] covers the whole loop and the handler
    only prints. *)
Definition to_map (arr : list string) : gmap string string * list Printed :=
  let '(map_value, raised) :=
    to_map_loop arr (range 1 (length arr) 2) ∅ in
  match raised with
  | None => (map_value, [])
  | Some err => (map_value, [mkPrinted (str_of_exn err) arr])
  end.

(** The reading of the function's comment: the list
    [warcFormatKey, k1, v1, k2, v2, ...] without its head, cut into
    consecutive key and value pairs; a key left without a value is dropped. *)
Fixpoint pairs_of (l : list string) : list (string * string) :=
  match l with
  | k :: v :: rest => (k, v) :: pairs_of rest
  | _ => []
  end.

(** The dict built by storing the pairs one after the other, from the left. *)
Definition store_all (kvs : list (string * string)) (m : gmap string string)
  : gmap string string :=
  foldl (fun m kv => <[kv.1 := kv.2]> m) m kvs.

Definition spec_to_map (arr : list string) : gmap string string :=
  store_all (pairs_of (tail arr)) ∅.

End SparkMapperInterface.

(** ** SparkReducerInterface *)

Module SparkReducerInterface.

(** The helpers of [letsdata_utils] and the dataframe engine behind them are
    not among the sources; the reducer is modelled over any engine. A
    dataframe is an immutable value: [union] and the grouped aggregation
    return new dataframes. *)
Class SparkEngine : Type := {
  Credentials : Type;
  SparkSession : Type;
  DataFrame : Type;
  (** [SecretManagerUtil.get_spark_aws_credentials(region, arn, stage, direction)] *)
  get_spark_aws_credentials : string -> string -> string -> string -> Credentials;
  (** [createSparkSession(appName, readDestination, writeDestination, readUri,
      writeUri, readCredentials, writeCredentials)] *)
  createSparkSession :
    string -> string -> string -> string -> string ->
    Credentials -> Credentials -> SparkSession;
  (** [readSparkDataframe(spark, readDestination, readUri, readFormat, readOptions)] *)
  readSparkDataframe :
    SparkSession -> string -> string -> string -> pyval -> DataFrame;
  (** [df.union(other)] *)
  union : DataFrame -> DataFrame -> DataFrame;
  (** [df.groupBy("language").agg(percentile('contentLength',0.90).alias(..),
      count('contentLength').alias(..)).orderBy(desc('# of Samples'))] *)
  groupBy_agg_orderBy : DataFrame -> DataFrame
}.

(** The arguments of the one call of [writeSparkDataframe]. *)
Record WriteCall {engine : SparkEngine} : Type := mkWriteCall {
  write_spark : SparkSession;
  write_destination : string;
  write_uri : string;
  write_format : string;
  write_mode : string;
  write_options : pyval;
  write_dataframe : DataFrame
}.
Arguments mkWriteCall {engine}.

Section Reducer.
Context {engine : SparkEngine}.

(** [os.environ['AWS_REGION']] *)
Variable AWS_REGION : string.

Definition get_read_destination_credentials (region arn : string) : Credentials :=
  get_spark_aws_credentials region arn "reducer" "read".

Definition get_write_destination_credentials (region arn : string) : Credentials :=
  get_spark_aws_credentials region arn "reducer" "write".

(** [readUris[0]] *)
Definition first_uri (readUris : list string) : res string :=
  match readUris !! 0 with
  | Some u => Ok u
  | None => Raise (IndexError "list index out of range")
  end.

(** One turn of the loop over [readUris]; [dataframe] is [None] or a
    dataframe. In the else branch the value of [dataframe.union(currDataFrame)]
    is an expression statement: it is computed and dropped. *)
Definition reducer_step (spark : SparkSession)
    (readDestination readFormat : string) (readOptions : pyval)
    (dataframe : option DataFrame) (readUri : string) : option DataFrame :=
  let currDataFrame :=
    readSparkDataframe spark readDestination readUri readFormat readOptions in
  match dataframe with
  | None => Some currDataFrame
  | Some df => let _ := union df currDataFrame in Some df
  end.

(** [reducer(self, appName, readDestination, readUris, ...)]: the call of
    [writeSparkDataframe] it ends with, or the exception that leaves it. *)
Definition reducer (appName readDestination : string) (readUris : list string)
    (readFormat : string) (readOptions : pyval)
    (writeDestination writeUri writeFormat writeMode : string)
    (writeOptions : pyval) (spark_credentials_secret_arn : string)
  : res WriteCall :=
  let readCredentials :=
    get_read_destination_credentials AWS_REGION spark_credentials_secret_arn in
  let writeCredentials :=
    get_write_destination_credentials AWS_REGION spark_credentials_secret_arn in
  let! uri0 := first_uri readUris in
  let spark :=
    createSparkSession appName readDestination writeDestination uri0 writeUri
                       readCredentials writeCredentials in
  let dataframe :=
    foldl (reducer_step spark readDestination readFormat readOptions)
          None readUris in
  match dataframe with
  | None =>
      Raise (AttributeError "'NoneType' object has no attribute 'groupBy'")
  | Some df =>
      Ok (mkWriteCall spark writeDestination writeUri writeFormat writeMode
                      writeOptions (groupBy_agg_orderBy df))
  end.

End Reducer.

End SparkReducerInterface.

(** ** The vocabulary of the specification *)

Module Spec.

(** A Key Mapping: a mapping all of whose values are strings. *)
Definition is_str (v : pyval) : bool :=
  match v with PStr _ => true | _ => false end.

Definition key_mapping (keys : pyval) : bool :=
  match keys with
  | PDict d => forallb (fun kv => is_str kv.2) d
  | _ => false
  end.

(** The values of a mapping, as Python values and, for a Key Mapping, as
    strings, in iteration order. *)
Definition mapping_values (keys : pyval) : list pyval :=
  match keys with PDict d => map snd d | _ => [] end.

Definition str_of (v : pyval) : string :=
  match v with PStr s => s | _ => EmptyString end.

Definition key_values (keys : pyval) : list string :=
  map str_of (mapping_values keys).

(** The Derived Identifier as the specification words it: undefined for an
    empty Key Mapping, else the values joined with the separator. *)
Definition derived_identifier (keys : pyval) : pyval :=
  match key_values keys with
  | [] => PNone
  | vs => PStr (String.concat "|" vs)
  end.

(** A payload that is absent or has zero attributes. *)
Definition absent_or_empty (payload : pyval) : bool :=
  match payload with
  | PNone | PDict [] => true
  | _ => false
  end.

(** A payload with at least one attribute. *)
Definition nonempty_payload (payload : pyval) : bool :=
  match payload with
  | PDict (_ :: _) => true
  | _ => false
  end.

(** The three status tags. *)
Definition status_tags : list string := ["SUCCESS"; "SKIP"; "ERROR"].

(** The status tag agrees with the class of the document. *)
Definition status_matches (r : ParseDocumentResult) : Prop :=
  match document r with
  | IsDocument _ => status r = "SUCCESS"
  | IsSkipDoc _ => status r = "SKIP"
  | IsErrorDoc _ => status r = "ERROR"
  end.

(** The outbound contract of a handler's result. *)
Definition result_contract (r : ParseDocumentResult) : Prop :=
  reserved r = PNone /\ status r ∈ status_tags /\ status_matches r.

(** A payload the platform hands over: absent, or a mapping. *)
Definition is_payload (payload : pyval) : bool :=
  absent_or_empty payload || nonempty_payload payload.

End Spec.

Import Spec.
Import DynamoDBTableItemReader DynamoDBStreamsRecordReader.

(** ** The behaviour of the handlers on any value *)

Module Behaviour.

Definition is_none (v : pyval) : bool :=
  match v with PNone => true | _ => false end.

(** The values of a mapping from the first one that is not None. *)
Fixpoint skip_none (vs : list pyval) : list pyval :=
  match vs with
  | PNone :: vs' => skip_none vs'
  | _ => vs
  end.

(** The lists of values on which the derivation loop ends without a fault:
    behind the leading None values there is at most one value, or strings
    only. *)
Definition derivable_values (vs : list pyval) : bool :=
  match skip_none vs with
  | [] | [_] => true
  | v :: ws => is_str v && forallb is_str ws
  end.

Definition derivable (keys : pyval) : bool :=
  match keys with
  | PDict d => derivable_values (map snd d)
  | _ => false
  end.

(** The identifier the loop leaves on such a list. *)
Definition derived_value (keys : pyval) : pyval :=
  match skip_none (mapping_values keys) with
  | [] => PNone
  | [v] => v
  | vs => PStr (String.concat "|" (map str_of vs))
  end.

Definition is_mapping (v : pyval) : bool :=
  match v with PDict _ => true | _ => false end.

(** What the payload guard makes of a value: [None], or [len] zero; [len]
    positive; no [len]. *)
Inductive PayloadKind : Type := AbsentOrEmpty | NonEmpty | Unsized.

Definition payload_kind (payload : pyval) : PayloadKind :=
  match payload with
  | PNone | PStr EmptyString | PDict [] => AbsentOrEmpty
  | PStr _ | PDict _ => NonEmpty
  | PBool _ | PInt _ => Unsized
  end.

(** The partition key of whichever document a result carries. *)
Definition partitionKey_of (d : AnyDoc) : pyval :=
  match d with
  | IsDocument d => doc_partitionKey d
  | IsSkipDoc s => skip_partitionKey s
  | IsErrorDoc e => err_partitionKey e
  end.

(** The ErrorDoc of the except branch: its reason text opens with the
    handler's prefix. *)
Definition is_exception_doc (d : AnyDoc) : Prop :=
  match d with
  | IsErrorDoc e => exists msg, err_reasonText e = "Exception - " +:+ msg
  | _ => False
  end.

(** The fixed fields of the documents of [parseDynamoDBItem]: identifier and
    partition key are one value; a Document has the tag and no metadata; an
    ErrorDoc has the reason code, two empty mappings and the mapping of
    [keys] in both context slots. *)
Definition table_item_shape (keys : pyval) (d : AnyDoc) : Prop :=
  match d with
  | IsDocument d =>
      doc_type d = DocumentType_Document
      /\ doc_partitionKey d = doc_identifier d
      /\ doc_tag d = "DOCUMENT" /\ doc_metadata d = PDict []
  | IsErrorDoc e =>
      err_partitionKey e = err_identifier e
      /\ err_reasonCode e = "DDB_ERROR"
      /\ err_mapping4 e = PDict [] /\ err_mapping5 e = PDict []
      /\ err_context1 e = PDict [("keys", keys)]
      /\ err_context2 e = PDict [("keys", keys)]
  | IsSkipDoc _ => False
  end.

(** The fixed fields of the documents of [parseRecord]. *)
Definition stream_record_shape (sequenceNumber : pyval) (d : AnyDoc) : Prop :=
  match d with
  | IsDocument d =>
      doc_type d = DocumentType_Document
      /\ doc_partitionKey d = doc_identifier d
      /\ doc_tag d = "DOCUMENT" /\ doc_metadata d = PDict []
  | IsSkipDoc s =>
      skip_partitionKey s = skip_identifier s
      /\ skip_reasonCode s = "DYNAMODBSTREAMS_SKIP"
      /\ skip_mapping4 s = PDict [] /\ skip_mapping5 s = PDict []
      /\ skip_context1 s = PDict [("sequenceNumber", sequenceNumber)]
      /\ skip_context2 s = PDict [("sequenceNumber", sequenceNumber)]
  | IsErrorDoc e =>
      err_partitionKey e = err_identifier e
      /\ err_reasonCode e = "KINESIS_ERROR"
      /\ err_mapping4 e = PDict [] /\ err_mapping5 e = PDict []
      /\ err_context1 e = PDict [("sequenceNumber", sequenceNumber)]
      /\ err_context2 e = PDict [("sequenceNumber", sequenceNumber)]
  end.

(** The two handlers on one Key Mapping and one payload: the same Document,
    or the empty record of the one against the delete record of the other,
    or two ErrorDocs of the except branch with one reason text. *)
Definition same_classification (table stream : ParseDocumentResult) : Prop :=
  match document table, document stream with
  | IsDocument d, IsDocument d' => d = d'
  | IsErrorDoc e, IsSkipDoc s =>
      err_reasonText e = "empty record" /\ skip_reasonText s = "delete record"
      /\ err_identifier e = skip_identifier s
  | IsErrorDoc e, IsErrorDoc e' =>
      is_exception_doc (IsErrorDoc e)
      /\ err_reasonText e = err_reasonText e'
      /\ err_identifier e = err_identifier e'
  | _, _ => False
  end.

(** Two documents of one class that agree in every field but, for two
    ErrorDocs, the identifier and the partition key. *)
Definition same_but_identifier (d d' : AnyDoc) : Prop :=
  match d, d' with
  | IsDocument x, IsDocument x' => x = x'
  | IsSkipDoc x, IsSkipDoc x' => x = x'
  | IsErrorDoc e, IsErrorDoc e' =>
      err_reasonCode e = err_reasonCode e'
      /\ err_mapping4 e = err_mapping4 e' /\ err_mapping5 e = err_mapping5 e'
      /\ err_context1 e = err_context1 e' /\ err_context2 e = err_context2 e'
      /\ err_reasonText e = err_reasonText e'
  | _, _ => False
  end.

(** A log record of level ERROR was written. *)
Definition logged_error (log : list LogRecord) : bool :=
  existsb (fun r => match log_level r with ERROR => true | DEBUG => false end)
          log.

End Behaviour.

Import Behaviour.

(** * Properties *)

(** ** Identifier derivation *)

Lemma append_assoc (s t u : string) : (s +:+ t) +:+ u = s +:+ (t +:+ u).
Proof.
  induction s as [|c s IH]; [done |].
  change (String c ((s +:+ t) +:+ u) = String c (s +:+ t +:+ u)).
  by rewrite IH.
Qed.

(** Once the identifier is a string, every further string value is appended
    behind a separator. *)
Lemma for_each_docId_step_str (vs : list string) (acc : string) :
  for_each docId_step (PStr <$> vs) (PStr acc)
  = Ok (PStr (String.concat "|" (acc :: vs))).
Proof.
  revert acc. induction vs as [|v vs IH]; intros acc; [done |].
  cbn [fmap list_fmap for_each docId_step str_add iadd_str Py.bind].
  rewrite IH. destruct vs as [|w vs]; cbn [String.concat].
  - done.
  - by rewrite append_assoc.
Qed.

Lemma key_mapping_values (d : list (string * pyval)) :
  forallb (fun kv => is_str kv.2) d = true ->
  map snd d = PStr <$> map str_of (map snd d).
Proof.
  induction d as [|[k v] d IH]; simpl; [done |].
  intros [Hv Hd]%andb_prop. destruct v; try discriminate.
  cbn. f_equal. by apply IH.
Qed.

Lemma derive_docId_key_mapping (keys : pyval) :
  key_mapping keys = true -> derive_docId keys = Ok (derived_identifier keys).
Proof.
  destruct keys as [| | | |d]; try discriminate. simpl. intros Hd.
  pose proof (key_mapping_values d Hd) as Hvs.
  unfold derive_docId, derived_identifier, key_values.
  cbn [values mapping_values Py.bind].
  set (vs := map str_of (map snd d)) in *. rewrite Hvs.
  destruct vs as [|v vs]; [done |].
  cbn [fmap list_fmap for_each docId_step Py.bind].
  apply for_each_docId_step_str.
Qed.

(** ** The payload guard *)

Lemma absent_or_empty_guard (payload : pyval) :
  absent_or_empty payload = true -> is_none_or_empty payload = Ok true.
Proof. by destruct payload as [| | | |[|? ?]]. Qed.

Lemma nonempty_payload_guard (payload : pyval) :
  nonempty_payload payload = true -> is_none_or_empty payload = Ok false.
Proof. by destruct payload as [| | | |[|? ?]]. Qed.

(** ** The table-item handler *)

(** C3: with a Key Mapping and an item of at least one attribute,
    [parseDynamoDBItem] returns status SUCCESS and a Document whose identifier
    and partition key are the Derived Identifier, whose tag is DOCUMENT, whose
    metadata mapping is empty and whose payload is the item as given. *)
Theorem parseDynamoDBItem_success
    (docIdUUID : string) (tableName segmentNumber keys item : pyval) :
  key_mapping keys = true ->
  nonempty_payload item = true ->
  (parseDynamoDBItem docIdUUID tableName segmentNumber keys item).1
  = mkParseDocumentResult PNone
      (IsDocument (mkDocument DocumentType_Document (derived_identifier keys)
                              "DOCUMENT" (derived_identifier keys)
                              (PDict []) item))
      "SUCCESS".
Proof.
  intros Hkeys Hitem. unfold parseDynamoDBItem, parseDynamoDBItem_try.
  rewrite (derive_docId_key_mapping keys Hkeys).
  cbn [Py.bind]. by rewrite (nonempty_payload_guard item Hitem).
Qed.

(** C4: with a Key Mapping and an item that is absent or has no attribute,
    [parseDynamoDBItem] returns status ERROR and an ErrorDoc whose identifier
    is the Derived Identifier (whatever the generator would have returned),
    with reason code DDB_ERROR, reason text [empty record] and the mapping of
    [keys] to the Key Mapping in both context slots. *)
Theorem parseDynamoDBItem_empty_record
    (docIdUUID : string) (tableName segmentNumber keys item : pyval) :
  key_mapping keys = true ->
  absent_or_empty item = true ->
  (parseDynamoDBItem docIdUUID tableName segmentNumber keys item).1
  = mkParseDocumentResult PNone
      (IsErrorDoc (mkErrorDoc (derived_identifier keys) "DDB_ERROR"
                              (derived_identifier keys) (PDict []) (PDict [])
                              (PDict [("keys", keys)]) (PDict [("keys", keys)])
                              "empty record"))
      "ERROR".
Proof.
  intros Hkeys Hitem. unfold parseDynamoDBItem, parseDynamoDBItem_try.
  rewrite (derive_docId_key_mapping keys Hkeys).
  cbn [Py.bind]. by rewrite (absent_or_empty_guard item Hitem).
Qed.

(** ** The stream-record handler *)

(** C5: with a Key Mapping and a newImage that is absent or empty,
    [parseRecord] returns status SKIP and a SkipDoc whose identifier is the
    Derived Identifier, with reason code DYNAMODBSTREAMS_SKIP, reason text
    [delete record] and the mapping of [sequenceNumber] to the sequence number
    in both context slots. *)
Theorem parseRecord_delete_record
    (docIdUUID : string)
    (streamArn shardId eventId eventName identityPrincipalId identityType
     sequenceNumber sizeBytes streamViewType approximateCreationDateTime
     keys oldImage newImage : pyval) :
  key_mapping keys = true ->
  absent_or_empty newImage = true ->
  (parseRecord docIdUUID streamArn shardId eventId eventName
     identityPrincipalId identityType sequenceNumber sizeBytes streamViewType
     approximateCreationDateTime keys oldImage newImage).1
  = mkParseDocumentResult PNone
      (IsSkipDoc (mkSkipDoc (derived_identifier keys) "DYNAMODBSTREAMS_SKIP"
                            (derived_identifier keys) (PDict []) (PDict [])
                            (PDict [("sequenceNumber", sequenceNumber)])
                            (PDict [("sequenceNumber", sequenceNumber)])
                            "delete record"))
      "SKIP".
Proof.
  intros Hkeys Himage. unfold parseRecord, parseRecord_try.
  rewrite (derive_docId_key_mapping keys Hkeys).
  cbn [Py.bind]. by rewrite (absent_or_empty_guard newImage Himage).
Qed.

(** C6: with a Key Mapping and a newImage of at least one attribute,
    [parseRecord] returns status SUCCESS and a Document whose identifier and
    partition key are the Derived Identifier, whose tag is DOCUMENT and whose
    payload is newImage as given. *)
Theorem parseRecord_success
    (docIdUUID : string)
    (streamArn shardId eventId eventName identityPrincipalId identityType
     sequenceNumber sizeBytes streamViewType approximateCreationDateTime
     keys oldImage newImage : pyval) :
  key_mapping keys = true ->
  nonempty_payload newImage = true ->
  (parseRecord docIdUUID streamArn shardId eventId eventName
     identityPrincipalId identityType sequenceNumber sizeBytes streamViewType
     approximateCreationDateTime keys oldImage newImage).1
  = mkParseDocumentResult PNone
      (IsDocument (mkDocument DocumentType_Document (derived_identifier keys)
                              "DOCUMENT" (derived_identifier keys)
                              (PDict []) newImage))
      "SUCCESS".
Proof.
  intros Hkeys Himage. unfold parseRecord, parseRecord_try.
  rewrite (derive_docId_key_mapping keys Hkeys).
  cbn [Py.bind]. by rewrite (nonempty_payload_guard newImage Himage).
Qed.

(** ** Both handlers *)

Lemma is_payload_guard (payload : pyval) :
  is_payload payload = true ->
  is_none_or_empty payload = Ok (absent_or_empty payload).
Proof. by destruct payload as [| | | |[|? ?]]. Qed.

(** C2: for a Key Mapping, the loop of both handlers leaves the Derived
    Identifier: for a mapping that is not empty, its values joined with the
    separator [|] in iteration order, and None for the empty mapping; it is
    the identifier of the document either handler returns for a payload. *)
Theorem derived_identifier_joins_values (keys : pyval) :
  key_mapping keys = true ->
  derive_docId keys = Ok (derived_identifier keys)
  /\ (key_values keys ≠ [] ->
      derived_identifier keys = PStr (String.concat "|" (key_values keys)))
  /\ (key_values keys = [] -> derived_identifier keys = PNone)
  /\ (forall docIdUUID tableName segmentNumber item,
        is_payload item = true ->
        identifier_of
          (document
             (parseDynamoDBItem docIdUUID tableName segmentNumber keys item).1)
        = derived_identifier keys)
  /\ (forall docIdUUID streamArn shardId eventId eventName identityPrincipalId
             identityType sequenceNumber sizeBytes streamViewType
             approximateCreationDateTime oldImage newImage,
        is_payload newImage = true ->
        identifier_of
          (document
             (parseRecord docIdUUID streamArn shardId eventId eventName
                identityPrincipalId identityType sequenceNumber sizeBytes
                streamViewType approximateCreationDateTime keys oldImage
                newImage).1)
        = derived_identifier keys).
Proof.
  intros Hkeys. pose proof (derive_docId_key_mapping keys Hkeys) as Hid.
  split; [done |]. split; [| split; [| split]].
  - unfold derived_identifier. by destruct (key_values keys).
  - unfold derived_identifier. by intros ->.
  - intros u t sn item Hitem. unfold parseDynamoDBItem, parseDynamoDBItem_try.
    rewrite Hid. cbn [Py.bind]. rewrite (is_payload_guard item Hitem).
    cbn [Py.bind]. by destruct (absent_or_empty item).
  - intros u a1 a2 a3 a4 a5 a6 a7 a8 a9 a10 old new Hnew.
    unfold parseRecord, parseRecord_try.
    rewrite Hid. cbn [Py.bind]. rewrite (is_payload_guard new Hnew).
    cbn [Py.bind]. by destruct (absent_or_empty new).
Qed.

(** The faults of the derivation named by the specification: [keys] that is
    no mapping has no [values] ... *)
Lemma derive_docId_not_a_mapping (keys : pyval) :
  mapping_values keys = [] -> keys ≠ PDict [] ->
  derive_docId keys
  = Raise (AttributeError
             ("'" +:+ type_name keys +:+ "' object has no attribute 'values'")).
Proof. destruct keys as [| | | |[|? ?]]; done. Qed.

(** ... and a value that is no string cannot follow a string. *)
Lemma docId_step_non_string (acc : string) (keyValue : pyval) :
  is_str keyValue = false ->
  docId_step (PStr acc) keyValue
  = Raise (TypeError
             ("can only concatenate str (not " +:+ dquote
              +:+ type_name keyValue +:+ dquote +:+ ") to str")).
Proof. by destruct keyValue. Qed.

(** The [try] block of a handler raises when the derivation does or, after
    it, when [len] of the payload does. *)
Lemma parseDynamoDBItem_try_raises
    (tableName segmentNumber keys item : pyval) (ex : exn) :
  parseDynamoDBItem_try tableName segmentNumber keys item = Raise ex <->
  derive_docId keys = Raise ex
  \/ (exists docId, derive_docId keys = Ok docId)
     /\ is_none_or_empty item = Raise ex.
Proof.
  unfold parseDynamoDBItem_try.
  destruct (derive_docId keys) as [docId|ex0]; cbn [Py.bind].
  - destruct (is_none_or_empty item) as [[|]|ex1]; cbn [Py.bind].
    + split; [discriminate | intros [?|[_ ?]]; discriminate].
    + split; [discriminate | intros [?|[_ ?]]; discriminate].
    + split; [intros [= ->]; right; eauto |].
      intros [?|[_ [= ->]]]; [discriminate | done].
  - split; [intros [= ->]; by left |].
    intros [[= ->]|[[? ?] _]]; [done | discriminate].
Qed.

(** C8: whatever the arguments, either handler returns a triple of the
    reserved field (None), a document and a status tag; the tag is one of
    SUCCESS, SKIP and ERROR, and it is SUCCESS with a Document, SKIP with a
    SkipDoc and ERROR with an ErrorDoc. *)
Theorem handlers_result_contract
    (docIdUUID : string) (tableName segmentNumber item : pyval)
    (streamArn shardId eventId eventName identityPrincipalId identityType
     sequenceNumber sizeBytes streamViewType approximateCreationDateTime
     keys oldImage newImage : pyval) :
  result_contract
    (parseDynamoDBItem docIdUUID tableName segmentNumber keys item).1
  /\ result_contract
       (parseRecord docIdUUID streamArn shardId eventId eventName
          identityPrincipalId identityType sequenceNumber sizeBytes
          streamViewType approximateCreationDateTime keys oldImage newImage).1.
Proof.
  unfold result_contract, status_matches, status_tags.
  unfold parseDynamoDBItem, parseDynamoDBItem_try, parseRecord, parseRecord_try.
  destruct (derive_docId keys) as [docId|ex]; cbn [Py.bind].
  - split.
    + destruct (is_none_or_empty item) as [[|]|ex]; cbn;
        (split; [done | split; [set_solver | done]]).
    + destruct (is_none_or_empty newImage) as [[|]|ex]; cbn;
        (split; [done | split; [set_solver | done]]).
  - cbn. split; (split; [done | split; [set_solver | done]]).
Qed.

(** ** The [to_map] function of the mapper *)

Import SparkMapperInterface.

(** Induction over a list two elements at a time. *)
Lemma pairs_ind (P : list string -> Prop) :
  P [] -> (forall k, P [k]) -> (forall k v rest, P rest -> P (k :: v :: rest)) ->
  forall l, P l.
Proof.
  intros Hnil Hone Hstep l.
  assert (P l /\ forall k, P (k :: l)) as [Hl _]; [| done].
  induction l as [|x l [IHl IHkl]]; [by split |].
  split; [apply IHkl |]. intros k. by apply Hstep.
Qed.

(** The loop over [range(i, len(arr), 2)] stores the pairs that start at
    index [i], and ends in an IndexError exactly when a key is left over. *)
Lemma to_map_loop_range (arr : list string) (fuel : nat) :
  forall (i : nat) (m : gmap string string),
    i ≤ length arr -> length arr ≤ i + 2 * fuel ->
    to_map_loop arr (range_from fuel i (length arr) 2) m
    = (store_all (pairs_of (drop i arr)) m,
       if Nat.odd (length (drop i arr))
       then Some (IndexError "list index out of range") else None).
Proof.
  induction fuel as [|fuel IH]; intros i m Hle Hfuel.
  - rewrite drop_ge by lia. done.
  - cbn [range_from]. destruct (Nat.ltb_spec i (length arr)) as [Hlt|Hge].
    + destruct (lookup_lt_is_Some_2 arr i Hlt) as [k Hk].
      rewrite (drop_S arr k i Hk).
      cbn [to_map_loop]. unfold to_map_body, getitem. rewrite Hk.
      cbn [Py.bind]. rewrite Nat.add_1_r.
      destruct (arr !! S i) as [v|] eqn:Hv; cbn [Py.bind].
      * rewrite (drop_S arr v (S i) Hv).
        pose proof (lookup_lt_Some arr (S i) v Hv) as Hlt'.
        replace (i + 2) with (S (S i)) by lia.
        rewrite IH by lia. done.
      * apply lookup_ge_None_1 in Hv. rewrite (drop_ge arr (S i)) by lia.
        done.
    + rewrite drop_ge by lia. done.
Qed.

Lemma to_map_loop_all (arr : list string) :
  to_map_loop arr (range 1 (length arr) 2) ∅
  = (spec_to_map arr,
     if Nat.odd (length (tail arr))
     then Some (IndexError "list index out of range") else None).
Proof.
  destruct arr as [|x arr]; [done |].
  unfold range, spec_to_map.
  rewrite to_map_loop_range by (cbn [length]; lia).
  by rewrite skipn_cons, drop_0.
Qed.

(** A key stored after the last pair that carries it keeps that pair's value. *)
Lemma store_all_keeps (kvs : list (string * string)) (k v : string) :
  forall m : gmap string string,
    k ∉ kvs.*1 -> m !! k = Some v -> store_all kvs m !! k = Some v.
Proof.
  induction kvs as [|[k' v'] kvs IH]; intros m Hk Hm; [done |].
  cbn in Hk. apply not_elem_of_cons in Hk as [Hne Hk].
  cbn. apply IH; [done |]. by rewrite lookup_insert_ne.
Qed.

Lemma store_all_last (before after : list (string * string)) (k v : string)
    (m : gmap string string) :
  k ∉ after.*1 -> store_all (before ++ (k, v) :: after) m !! k = Some v.
Proof.
  intros Hk. unfold store_all. rewrite foldl_app. cbn [foldl].
  apply store_all_keeps; [done |]. apply lookup_insert_eq.
Qed.

(** A key at the end of a list of complete pairs starts no pair. *)
Lemma pairs_of_trailing_key (k : string) (l : list string) :
  Nat.even (length l) = true -> pairs_of (l ++ [k]) = pairs_of l.
Proof.
  induction l as [| k0 | k0 v0 rest IH] using pairs_ind; [done | done |].
  intros Heven. cbn. f_equal. by apply IH.
Qed.

(** C10: [to_map] is a total function of the list: no exception leaves it.
    The dict it returns is the one built from the pairs (arr[1], arr[2]),
    (arr[3], arr[4]), ... stored from the left, whatever arr[0] is, so that
    the last pair with a given key gives its value. For a list of even length
    (not empty) the access behind the last key raises IndexError, which is
    caught and printed, and the dict built so far is returned: the trailing
    key is dropped. For other lists nothing is printed. *)
Theorem to_map_builds_pairs (arr : list string) :
  (to_map arr).1 = spec_to_map arr
  /\ (to_map arr).2
     = (if Nat.even (length arr) && negb (Nat.eqb (length arr) 0)
        then [mkPrinted "list index out of range" arr] else [])
  /\ (forall x y rest, arr = x :: rest ->
        (to_map (y :: rest)).1 = (to_map arr).1)
  /\ (forall k, Nat.odd (length arr) = true ->
        (to_map (arr ++ [k])).1 = (to_map arr).1
        /\ (to_map (arr ++ [k])).2
           = [mkPrinted "list index out of range" (arr ++ [k])])
  /\ (forall before k v after,
        pairs_of (tail arr) = before ++ (k, v) :: after ->
        k ∉ after.*1 -> (to_map arr).1 !! k = Some v).
Proof.
  assert (forall l, (to_map l).1 = spec_to_map l) as Hmap.
  { intros l. unfold to_map. rewrite to_map_loop_all.
    by destruct (Nat.odd (length (tail l))). }
  assert (forall l, (to_map l).2
                    = if Nat.even (length l) && negb (Nat.eqb (length l) 0)
                      then [mkPrinted "list index out of range" l] else [])
    as Hprint.
  { intros l. unfold to_map. rewrite to_map_loop_all.
    destruct l as [|x l]; [done |]. cbn [tail length Nat.eqb negb].
    rewrite andb_true_r, Nat.even_succ.
    by destruct (Nat.odd (length l)). }
  split; [apply Hmap |]. split; [apply Hprint |]. split; [| split].
  - intros x y rest ->. by rewrite !Hmap.
  - intros k Hodd. rewrite Hprint, !Hmap. split.
    + destruct arr as [|x arr]; [done |]. unfold spec_to_map.
      cbn [tail app]. rewrite pairs_of_trailing_key; [done |].
      cbn [length] in Hodd. by rewrite Nat.odd_succ in Hodd.
    + rewrite length_app. cbn [length]. rewrite Nat.add_1_r, Nat.even_succ, Hodd.
      done.
  - intros before k v after Hpairs Hk. rewrite Hmap. unfold spec_to_map.
    rewrite Hpairs. by apply store_all_last.
Qed.

(** ** The reducer *)

Import SparkReducerInterface.

(** Once [dataframe] holds a dataframe, no turn of the loop changes it. *)
Lemma reducer_loop_keeps_first {engine : SparkEngine}
    (spark : SparkSession) (readDestination readFormat : string)
    (readOptions : pyval) (df : DataFrame) (readUris : list string) :
  foldl (reducer_step spark readDestination readFormat readOptions)
        (Some df) readUris
  = Some df.
Proof. induction readUris as [|u us IH]; [done |]. cbn. apply IH. Qed.

(** The loop leaves the dataframe of the first readUri. *)
Lemma reducer_loop_first {engine : SparkEngine}
    (spark : SparkSession) (readDestination readFormat : string)
    (readOptions : pyval) (readUri : string) (readUris : list string) :
  foldl (reducer_step spark readDestination readFormat readOptions)
        None (readUri :: readUris)
  = Some (readSparkDataframe spark readDestination readUri readFormat
            readOptions).
Proof.
  exact (reducer_loop_keeps_first spark readDestination readFormat readOptions
           (readSparkDataframe spark readDestination readUri readFormat
              readOptions) readUris).
Qed.

(** C9: for a list of more than one readUri, the reducer writes the grouped
    aggregation of the dataframe read from the first readUri alone: the value
    of [dataframe.union(currDataFrame)] is dropped in every later turn of the
    loop, so neither the other dataframes nor [union] enter the dataframe that
    is aggregated and written. *)
Theorem reducer_aggregates_first_dataframe {engine : SparkEngine}
    (AWS_REGION appName readDestination uri0 uri1 : string)
    (uris : list string) (readFormat : string) (readOptions : pyval)
    (writeDestination writeUri writeFormat writeMode : string)
    (writeOptions : pyval) (spark_credentials_secret_arn : string) :
  reducer AWS_REGION appName readDestination (uri0 :: uri1 :: uris)
    readFormat readOptions writeDestination writeUri writeFormat writeMode
    writeOptions spark_credentials_secret_arn
  = Ok (mkWriteCall
          (createSparkSession appName readDestination writeDestination uri0
             writeUri
             (get_spark_aws_credentials AWS_REGION
                spark_credentials_secret_arn "reducer" "read")
             (get_spark_aws_credentials AWS_REGION
                spark_credentials_secret_arn "reducer" "write"))
          writeDestination writeUri writeFormat writeMode writeOptions
          (groupBy_agg_orderBy
             (readSparkDataframe
                (createSparkSession appName readDestination writeDestination
                   uri0 writeUri
                   (get_spark_aws_credentials AWS_REGION
                      spark_credentials_secret_arn "reducer" "read")
                   (get_spark_aws_credentials AWS_REGION
                      spark_credentials_secret_arn "reducer" "write"))
                readDestination uri0 readFormat readOptions))).
Proof.
  unfold reducer, first_uri. cbn [lookup list_lookup Py.bind].
  by rewrite reducer_loop_first.
Qed.

(** * The specification's examples, evaluated *)

Example table_item_success_example :
  parseDynamoDBItem "123e4567-e89b-42d3-a456-426614174000" (PStr "table")
    (PInt 0) (PDict [("pk", PStr "A"); ("sk", PStr "B")])
    (PDict [("x", PStr "1")])
  = (mkParseDocumentResult PNone
       (IsDocument (mkDocument DocumentType_Document (PStr "A|B") "DOCUMENT"
                               (PStr "A|B") (PDict [])
                               (PDict [("x", PStr "1")])))
       "SUCCESS",
     [mkLogRecord DEBUG "processing record, returning success"
        [("docId", PStr "A|B")]]).
Proof. reflexivity. Qed.

Example table_item_keys_none_example :
  (parseDynamoDBItem "123e4567-e89b-42d3-a456-426614174000" (PStr "table")
     (PInt 0) PNone (PDict [("x", PStr "1")])).1
  = mkParseDocumentResult PNone
      (IsErrorDoc
         (mkErrorDoc (PStr "123e4567-e89b-42d3-a456-426614174000") "DDB_ERROR"
            (PStr "123e4567-e89b-42d3-a456-426614174000")
            (PDict []) (PDict [])
            (PDict [("keys", PNone)]) (PDict [("keys", PNone)])
            "Exception - 'NoneType' object has no attribute 'values'"))
      "ERROR".
Proof. reflexivity. Qed.

(** A single key value is taken as it is, string or not, and a leading None
    is overwritten by the next value: only a value that follows one that is
    not None has to be a string. *)
Example docId_single_number :
  derive_docId (PDict [("pk", PInt 5)]) = Ok (PInt 5).
Proof. reflexivity. Qed.

Example docId_none_then_string :
  derive_docId (PDict [("pk", PNone); ("sk", PStr "B")]) = Ok (PStr "B").
Proof. reflexivity. Qed.

Example docId_string_then_number :
  derive_docId (PDict [("pk", PStr "A"); ("sk", PInt 5)])
  = Raise (TypeError ("can only concatenate str (not " +:+ dquote +:+ "int"
                      +:+ dquote +:+ ") to str")).
Proof. reflexivity. Qed.

(** The list of the comment above [to_map]. *)
Example to_map_comment_example :
  to_map ["warcFormatKey"; "k1"; "v1"; "k2"; "v2"]
  = (<["k2" := "v2"]> (<["k1" := "v1"]> ∅), []).
Proof. reflexivity. Qed.

Example to_map_trailing_key_example :
  to_map ["WARC/1.0"; "WARC-Type"; "conversion"; "Content-Length"]
  = (<["WARC-Type" := "conversion"]> ∅,
     [mkPrinted "list index out of range"
        ["WARC/1.0"; "WARC-Type"; "conversion"; "Content-Length"]]).
Proof. reflexivity. Qed.

Example to_map_duplicate_key_example :
  (to_map ["WARC/1.0"; "k"; "first"; "k"; "second"]).1 !! "k" = Some "second".
Proof. reflexivity. Qed.

(** * The theorems at concrete inputs *)

(** The examples of the specification: keys pk = A and sk = B. *)
Lemma derived_identifier_joins_values_witness :
  key_mapping (PDict [("pk", PStr "A"); ("sk", PStr "B")]) = true
  /\ derive_docId (PDict [("pk", PStr "A"); ("sk", PStr "B")])
     = Ok (PStr "A|B")
  /\ identifier_of
       (document
          (parseDynamoDBItem "123e4567-e89b-42d3-a456-426614174000"
             (PStr "table") (PInt 0)
             (PDict [("pk", PStr "A"); ("sk", PStr "B")])
             (PDict [("x", PStr "1")])).1)
     = PStr "A|B"
  /\ identifier_of
       (document
          (parseRecord "123e4567-e89b-42d3-a456-426614174000"
             (PStr "arn") (PStr "shard") (PStr "event") (PStr "REMOVE")
             (PStr "principal") (PStr "type") (PStr "100") (PInt 12)
             (PStr "KEYS_ONLY") (PInt 1700000000)
             (PDict [("pk", PStr "A"); ("sk", PStr "B")]) PNone PNone).1)
     = PStr "A|B".
Proof.
  destruct (derived_identifier_joins_values
              (PDict [("pk", PStr "A"); ("sk", PStr "B")]) eq_refl)
    as (Hloop & _ & _ & Hitem & Hrecord).
  split; [reflexivity |]. split; [exact Hloop |]. split.
  - exact (Hitem _ _ _ (PDict [("x", PStr "1")]) eq_refl).
  - exact (Hrecord _ _ _ _ _ _ _ _ _ _ _ PNone PNone eq_refl).
Defined.

Lemma parseDynamoDBItem_success_witness :
  (parseDynamoDBItem "123e4567-e89b-42d3-a456-426614174000"
     (PStr "table") (PInt 0) (PDict [("pk", PStr "A"); ("sk", PStr "B")])
     (PDict [("x", PStr "1")])).1
  = mkParseDocumentResult PNone
      (IsDocument (mkDocument DocumentType_Document (PStr "A|B") "DOCUMENT"
                              (PStr "A|B") (PDict [])
                              (PDict [("x", PStr "1")])))
      "SUCCESS".
Proof.
  exact (parseDynamoDBItem_success "123e4567-e89b-42d3-a456-426614174000"
           (PStr "table") (PInt 0)
           (PDict [("pk", PStr "A"); ("sk", PStr "B")])
           (PDict [("x", PStr "1")]) eq_refl eq_refl).
Defined.

Lemma parseDynamoDBItem_empty_record_witness :
  (parseDynamoDBItem "123e4567-e89b-42d3-a456-426614174000"
     (PStr "table") (PInt 0) (PDict [("pk", PStr "A")]) (PDict [])).1
  = mkParseDocumentResult PNone
      (IsErrorDoc (mkErrorDoc (PStr "A") "DDB_ERROR" (PStr "A")
                              (PDict []) (PDict [])
                              (PDict [("keys", PDict [("pk", PStr "A")])])
                              (PDict [("keys", PDict [("pk", PStr "A")])])
                              "empty record"))
      "ERROR".
Proof.
  exact (parseDynamoDBItem_empty_record "123e4567-e89b-42d3-a456-426614174000"
           (PStr "table") (PInt 0) (PDict [("pk", PStr "A")]) (PDict [])
           eq_refl eq_refl).
Defined.

Lemma parseRecord_delete_record_witness :
  (parseRecord "123e4567-e89b-42d3-a456-426614174000"
     (PStr "arn") (PStr "shard") (PStr "event") (PStr "REMOVE")
     (PStr "principal") (PStr "type") (PStr "100") (PInt 12)
     (PStr "NEW_AND_OLD_IMAGES") (PInt 1700000000)
     (PDict [("pk", PStr "A")]) (PDict [("x", PStr "0")]) PNone).1
  = mkParseDocumentResult PNone
      (IsSkipDoc (mkSkipDoc (PStr "A") "DYNAMODBSTREAMS_SKIP" (PStr "A")
                            (PDict []) (PDict [])
                            (PDict [("sequenceNumber", PStr "100")])
                            (PDict [("sequenceNumber", PStr "100")])
                            "delete record"))
      "SKIP".
Proof.
  exact (parseRecord_delete_record "123e4567-e89b-42d3-a456-426614174000"
           (PStr "arn") (PStr "shard") (PStr "event") (PStr "REMOVE")
           (PStr "principal") (PStr "type") (PStr "100") (PInt 12)
           (PStr "NEW_AND_OLD_IMAGES") (PInt 1700000000)
           (PDict [("pk", PStr "A")]) (PDict [("x", PStr "0")]) PNone
           eq_refl eq_refl).
Defined.

Lemma parseRecord_success_witness :
  (parseRecord "123e4567-e89b-42d3-a456-426614174000"
     (PStr "arn") (PStr "shard") (PStr "event") (PStr "MODIFY")
     (PStr "principal") (PStr "type") (PStr "101") (PInt 12)
     (PStr "NEW_AND_OLD_IMAGES") (PInt 1700000000)
     (PDict [("pk", PStr "A"); ("sk", PStr "B")])
     (PDict [("x", PStr "0")]) (PDict [("x", PStr "1")])).1
  = mkParseDocumentResult PNone
      (IsDocument (mkDocument DocumentType_Document (PStr "A|B") "DOCUMENT"
                              (PStr "A|B") (PDict [])
                              (PDict [("x", PStr "1")])))
      "SUCCESS".
Proof.
  exact (parseRecord_success "123e4567-e89b-42d3-a456-426614174000"
           (PStr "arn") (PStr "shard") (PStr "event") (PStr "MODIFY")
           (PStr "principal") (PStr "type") (PStr "101") (PInt 12)
           (PStr "NEW_AND_OLD_IMAGES") (PInt 1700000000)
           (PDict [("pk", PStr "A"); ("sk", PStr "B")])
           (PDict [("x", PStr "0")]) (PDict [("x", PStr "1")])
           eq_refl eq_refl).
Defined.

(** * Further properties of the handlers *)

(** ** The derivation loop on any mapping *)

Lemma for_each_app {S A : Type} (body : S -> A -> res S) (xs ys : list A)
    (s : S) :
  for_each body (xs ++ ys) s
  = Py.bind (for_each body xs s) (for_each body ys).
Proof.
  revert s. induction xs as [|x xs IH]; intros s; [done |].
  cbn [app for_each]. destruct (body s x) as [s'|ex]; cbn [Py.bind]; [| done].
  apply IH.
Qed.

Lemma for_each_skip_none (vs : list pyval) :
  for_each docId_step vs PNone = for_each docId_step (skip_none vs) PNone.
Proof. induction vs as [|[] vs IH]; done. Qed.

Lemma skip_none_head (vs ws : list pyval) (v : pyval) :
  skip_none vs = v :: ws -> is_none v = false.
Proof.
  induction vs as [|[] vs IH]; cbn; intros Hvs; try discriminate;
    try (by injection Hvs as <- _).
  by apply IH.
Qed.

Lemma str_values (ws : list pyval) :
  forallb is_str ws = true -> ws = PStr <$> map str_of ws.
Proof.
  induction ws as [|w ws IH]; [done |].
  cbn. intros [Hw Hws]%andb_prop. destruct w; try discriminate.
  cbn. f_equal. by apply IH.
Qed.

Lemma for_each_strings (ws : list pyval) (acc : string) :
  forallb is_str ws = true ->
  for_each docId_step ws (PStr acc)
  = Ok (PStr (String.concat "|" (acc :: map str_of ws))).
Proof.
  intros Hws. rewrite (str_values ws Hws) at 1.
  apply for_each_docId_step_str.
Qed.

Lemma for_each_non_string (ws : list pyval) (acc : string) :
  forallb is_str ws = false ->
  exists msg, for_each docId_step ws (PStr acc) = Raise (TypeError msg).
Proof.
  revert acc. induction ws as [|w ws IH]; intros acc; [done |].
  cbn [forallb]. destruct w; cbn [is_str andb]; intros Hws;
    try (by eexists).
  cbn [for_each docId_step str_add iadd_str Py.bind]. by apply IH.
Qed.

Lemma for_each_after_non_string (v w : pyval) (ws : list pyval) :
  is_none v = false -> is_str v = false ->
  exists msg, for_each docId_step (w :: ws) v = Raise (TypeError msg).
Proof.
  intros Hnone Hstr. destruct v; try discriminate; destruct w; by eexists.
Qed.

Lemma derive_docId_by_cases (keys : pyval) :
  (derivable keys = true -> derive_docId keys = Ok (derived_value keys))
  /\ (derivable keys = false ->
      exists msg,
        derive_docId keys
        = Raise (if is_mapping keys then TypeError msg
                 else AttributeError msg)).
Proof.
  destruct keys as [| | | |d]; try (split; [discriminate | by eexists]).
  unfold derivable, derived_value, derivable_values, derive_docId.
  cbn [values mapping_values Py.bind is_mapping].
  rewrite for_each_skip_none.
  destruct (skip_none (map snd d)) as [|v [|w ws]] eqn:Hskip.
  - split; [done | discriminate].
  - split; [done | discriminate].
  - pose proof (skip_none_head _ _ _ Hskip) as Hnone.
    destruct (is_str v) eqn:Hv; cbn [andb].
    + destruct v as [| | |s|]; try discriminate.
      split; intros Hws.
      * change (for_each docId_step (PStr s :: w :: ws) PNone)
          with (for_each docId_step (w :: ws) (PStr s)).
        rewrite (for_each_strings _ s Hws). done.
      * apply (for_each_non_string _ s Hws).
    + split; [discriminate |]. intros _.
      destruct v; try discriminate; destruct w; by eexists.
Qed.

(** X1: the derivation loop on [keys] built from None, booleans, integers,
    strings and mappings (a list as key value is outside these values: the
    loop extends it in place). It ends without a fault exactly when [keys] is
    a mapping and, behind its leading None values, there is at most one value
    or there are only strings; the identifier is then None, that one value as
    it is (string or not), or the strings joined with the separator. In every
    other case it raises: AttributeError when [keys] is no mapping, TypeError
    otherwise. *)
Theorem derive_docId_cases (keys : pyval) :
  (derivable keys = true -> derive_docId keys = Ok (derived_value keys))
  /\ (derivable keys = false ->
      exists msg,
        derive_docId keys
        = Raise (if is_mapping keys then TypeError msg
                 else AttributeError msg)).
Proof. exact (derive_docId_by_cases keys). Qed.

(** On a Key Mapping the identifier the loop leaves is the Derived
    Identifier of the specification. *)
Lemma key_mapping_derivable (keys : pyval) :
  key_mapping keys = true ->
  derivable keys = true /\ derived_value keys = derived_identifier keys.
Proof.
  intros Hkeys. pose proof (derive_docId_key_mapping keys Hkeys) as Hid.
  destruct (derivable keys) eqn:Hd.
  - destruct (derive_docId_by_cases keys) as [Hok _].
    rewrite (Hok Hd) in Hid. by injection Hid as ->.
  - destruct (derive_docId_by_cases keys) as [_ Hraise].
    destruct (Hraise Hd) as [msg Hmsg]. by rewrite Hmsg in Hid.
Qed.

(** X2: the leading None values of a mapping do not count: the loop leaves
    the same identifier, or raises the same exception, with and without
    them. *)
Theorem derive_docId_leading_none (nones rest : list (string * pyval)) :
  forallb (fun kv => is_none kv.2) nones = true ->
  derive_docId (PDict (nones ++ rest)) = derive_docId (PDict rest).
Proof.
  intros Hnones. unfold derive_docId. cbn [values Py.bind].
  rewrite map_app, for_each_app.
  assert (for_each docId_step (map snd nones) PNone = Ok PNone) as ->; [| done].
  induction nones as [|[k v] nones IH]; [done |].
  cbn in Hnones. apply andb_prop in Hnones as [Hv Hnones].
  destruct v; try discriminate. cbn. by apply IH.
Qed.

(** X3: the separator is not escaped. Two neighbouring string values [a] and
    [b] give what the one value [a|b] gives, whatever stands before and
    behind them and whatever the attributes are called. *)
Theorem derive_docId_separator_not_escaped
    (before after : list (string * pyval)) (k1 k2 k : string) (a b : string) :
  derive_docId (PDict (before ++ (k1, PStr a) :: (k2, PStr b) :: after))
  = derive_docId (PDict (before ++ (k, PStr (a +:+ "|" +:+ b)) :: after)).
Proof.
  unfold derive_docId. cbn [values Py.bind].
  rewrite !map_app, !for_each_app. cbn [map snd].
  destruct (for_each docId_step (map snd before) PNone) as [docId|ex];
    cbn [Py.bind]; [| done].
  cbn [for_each].
  destruct docId; cbn [docId_step str_add iadd_str Py.bind]; try done.
  by rewrite !append_assoc.
Qed.

(** ** The handlers on any keys and any payload *)

Lemma payload_guard_cases (payload : pyval) :
  match payload_kind payload with
  | AbsentOrEmpty => is_none_or_empty payload = Ok true
  | NonEmpty => is_none_or_empty payload = Ok false
  | Unsized => exists msg, is_none_or_empty payload = Raise (TypeError msg)
  end.
Proof. destruct payload as [| | |[|c s]|[|kv d]]; cbn; by eauto. Qed.

Lemma exception_text_not_empty_record (msg : string) :
  "Exception - " +:+ msg ≠ "empty record".
Proof. discriminate. Qed.

(** X4: a fault of the derivation comes before the payload guard. When the
    loop over [keys] raises, both handlers return the ErrorDoc of the except
    branch, with one reason text for every payload: bad keys with an empty or
    absent payload are reported neither as an empty record nor as a delete
    record. *)
Theorem key_fault_precedes_payload_guard (keys : pyval) :
  derivable keys = false ->
  exists msg,
    (forall docIdUUID tableName segmentNumber item,
       (parseDynamoDBItem docIdUUID tableName segmentNumber keys item).1
       = mkParseDocumentResult PNone
           (IsErrorDoc
              (mkErrorDoc (PStr docIdUUID) "DDB_ERROR" (PStr docIdUUID)
                 (PDict []) (PDict [])
                 (PDict [("keys", keys)]) (PDict [("keys", keys)])
                 ("Exception - " +:+ msg)))
           "ERROR")
    /\ (forall docIdUUID streamArn shardId eventId eventName
               identityPrincipalId identityType sequenceNumber sizeBytes
               streamViewType approximateCreationDateTime oldImage newImage,
          (parseRecord docIdUUID streamArn shardId eventId eventName
             identityPrincipalId identityType sequenceNumber sizeBytes
             streamViewType approximateCreationDateTime keys oldImage
             newImage).1
          = mkParseDocumentResult PNone
              (IsErrorDoc
                 (mkErrorDoc (PStr docIdUUID) "KINESIS_ERROR" (PStr docIdUUID)
                    (PDict []) (PDict [])
                    (PDict [("sequenceNumber", sequenceNumber)])
                    (PDict [("sequenceNumber", sequenceNumber)])
                    ("Exception - " +:+ msg)))
              "ERROR").
Proof.
  intros Hkeys. destruct (derive_docId_by_cases keys) as [_ Hraise].
  destruct (Hraise Hkeys) as [msg Hmsg].
  exists msg. split; intros.
  - unfold parseDynamoDBItem, parseDynamoDBItem_try. rewrite Hmsg.
    by destruct (is_mapping keys).
  - unfold parseRecord, parseRecord_try. rewrite Hmsg.
    by destruct (is_mapping keys).
Qed.

(** X5: the table-item handler on every input. It returns SUCCESS exactly
    when the derivation ends without a fault and the item has a positive
    [len] (a mapping or a string that is not empty), with the item as
    payload; the empty record ErrorDoc exactly when the derivation ends
    without a fault and the item is None or has [len] zero; and in every
    other case the ErrorDoc of the except branch under the generated
    identifier. On the first two paths the generated identifier is not
    used. *)
Theorem parseDynamoDBItem_classification
    (docIdUUID : string) (tableName segmentNumber keys item : pyval) :
  match derivable keys, payload_kind item with
  | true, NonEmpty =>
      (parseDynamoDBItem docIdUUID tableName segmentNumber keys item).1
      = mkParseDocumentResult PNone
          (IsDocument (mkDocument DocumentType_Document (derived_value keys)
                                  "DOCUMENT" (derived_value keys)
                                  (PDict []) item))
          "SUCCESS"
  | true, AbsentOrEmpty =>
      (parseDynamoDBItem docIdUUID tableName segmentNumber keys item).1
      = mkParseDocumentResult PNone
          (IsErrorDoc (mkErrorDoc (derived_value keys) "DDB_ERROR"
                                  (derived_value keys) (PDict []) (PDict [])
                                  (PDict [("keys", keys)])
                                  (PDict [("keys", keys)]) "empty record"))
          "ERROR"
  | _, _ =>
      status (parseDynamoDBItem docIdUUID tableName segmentNumber keys item).1
      = "ERROR"
      /\ is_exception_doc
           (document
              (parseDynamoDBItem docIdUUID tableName segmentNumber keys
                 item).1)
      /\ identifier_of
           (document
              (parseDynamoDBItem docIdUUID tableName segmentNumber keys
                 item).1)
         = PStr docIdUUID
  end.
Proof.
  destruct (derive_docId_by_cases keys) as [Hok Hraise].
  pose proof (payload_guard_cases item) as Hguard.
  unfold parseDynamoDBItem, parseDynamoDBItem_try.
  destruct (derivable keys).
  - rewrite (Hok eq_refl). cbn [Py.bind].
    destruct (payload_kind item).
    + by rewrite Hguard.
    + by rewrite Hguard.
    + destruct Hguard as [msg ->]. cbn. eauto.
  - destruct (Hraise eq_refl) as [msg ->].
    destruct (is_mapping keys); cbn; eauto.
Qed.

(** X6: the stream-record handler on every input. As the table-item
    handler, with the delete record SkipDoc and status SKIP where that one
    returns the empty record. *)
Theorem parseRecord_classification
    (docIdUUID : string)
    (streamArn shardId eventId eventName identityPrincipalId identityType
     sequenceNumber sizeBytes streamViewType approximateCreationDateTime
     keys oldImage newImage : pyval) :
  match derivable keys, payload_kind newImage with
  | true, NonEmpty =>
      (parseRecord docIdUUID streamArn shardId eventId eventName
         identityPrincipalId identityType sequenceNumber sizeBytes
         streamViewType approximateCreationDateTime keys oldImage newImage).1
      = mkParseDocumentResult PNone
          (IsDocument (mkDocument DocumentType_Document (derived_value keys)
                                  "DOCUMENT" (derived_value keys)
                                  (PDict []) newImage))
          "SUCCESS"
  | true, AbsentOrEmpty =>
      (parseRecord docIdUUID streamArn shardId eventId eventName
         identityPrincipalId identityType sequenceNumber sizeBytes
         streamViewType approximateCreationDateTime keys oldImage newImage).1
      = mkParseDocumentResult PNone
          (IsSkipDoc (mkSkipDoc (derived_value keys) "DYNAMODBSTREAMS_SKIP"
                                (derived_value keys) (PDict []) (PDict [])
                                (PDict [("sequenceNumber", sequenceNumber)])
                                (PDict [("sequenceNumber", sequenceNumber)])
                                "delete record"))
          "SKIP"
  | _, _ =>
      status
        (parseRecord docIdUUID streamArn shardId eventId eventName
           identityPrincipalId identityType sequenceNumber sizeBytes
           streamViewType approximateCreationDateTime keys oldImage
           newImage).1
      = "ERROR"
      /\ is_exception_doc
           (document
              (parseRecord docIdUUID streamArn shardId eventId eventName
                 identityPrincipalId identityType sequenceNumber sizeBytes
                 streamViewType approximateCreationDateTime keys oldImage
                 newImage).1)
      /\ identifier_of
           (document
              (parseRecord docIdUUID streamArn shardId eventId eventName
                 identityPrincipalId identityType sequenceNumber sizeBytes
                 streamViewType approximateCreationDateTime keys oldImage
                 newImage).1)
         = PStr docIdUUID
  end.
Proof.
  destruct (derive_docId_by_cases keys) as [Hok Hraise].
  pose proof (payload_guard_cases newImage) as Hguard.
  unfold parseRecord, parseRecord_try.
  destruct (derivable keys).
  - rewrite (Hok eq_refl). cbn [Py.bind].
    destruct (payload_kind newImage).
    + by rewrite Hguard.
    + by rewrite Hguard.
    + destruct Hguard as [msg ->]. cbn. eauto.
  - destruct (Hraise eq_refl) as [msg ->].
    destruct (is_mapping keys); cbn; eauto.
Qed.

(** The [try] block of a handler raises exactly on the inputs on which the
    loop over [keys] raises or the payload has no [len]. *)
Lemma parseDynamoDBItem_try_fault
    (tableName segmentNumber keys item : pyval) :
  (derivable keys = false \/ payload_kind item = Unsized ->
   exists ex,
     parseDynamoDBItem_try tableName segmentNumber keys item = Raise ex)
  /\ (forall ex,
        parseDynamoDBItem_try tableName segmentNumber keys item = Raise ex ->
        derivable keys = false \/ payload_kind item = Unsized).
Proof.
  destruct (derive_docId_by_cases keys) as [Hok Hraise].
  pose proof (payload_guard_cases item) as Hguard.
  unfold parseDynamoDBItem_try. destruct (derivable keys).
  - rewrite (Hok eq_refl). cbn [Py.bind].
    destruct (payload_kind item).
    + rewrite Hguard. split; [by intros [?|?] | done].
    + rewrite Hguard. split; [by intros [?|?] | done].
    + destruct Hguard as [msg ->]. split; [by eauto | by right].
  - destruct (Hraise eq_refl) as [msg ->]. split; [by eauto | by left].
Qed.

Lemma parseRecord_try_fault
    (streamArn shardId eventId eventName identityPrincipalId identityType
     sequenceNumber sizeBytes streamViewType approximateCreationDateTime
     keys oldImage newImage : pyval) :
  (derivable keys = false \/ payload_kind newImage = Unsized ->
   exists ex,
     parseRecord_try streamArn shardId eventId eventName identityPrincipalId
       identityType sequenceNumber sizeBytes streamViewType
       approximateCreationDateTime keys oldImage newImage = Raise ex)
  /\ (forall ex,
        parseRecord_try streamArn shardId eventId eventName
          identityPrincipalId identityType sequenceNumber sizeBytes
          streamViewType approximateCreationDateTime keys oldImage newImage
        = Raise ex ->
        derivable keys = false \/ payload_kind newImage = Unsized).
Proof.
  destruct (derive_docId_by_cases keys) as [Hok Hraise].
  pose proof (payload_guard_cases newImage) as Hguard.
  unfold parseRecord_try. destruct (derivable keys).
  - rewrite (Hok eq_refl). cbn [Py.bind].
    destruct (payload_kind newImage).
    + rewrite Hguard. split; [by intros [?|?] | done].
    + rewrite Hguard. split; [by intros [?|?] | done].
    + destruct Hguard as [msg ->]. split; [by eauto | by right].
  - destruct (Hraise eq_refl) as [msg ->]. split; [by eauto | by left].
Qed.

(** C1 (as amended): a fault is raised in the [try] block of a handler
    exactly when the loop over [keys] raises ([keys] is None or no mapping, or
    a value that is no string stands behind another value) or the payload has
    no [len]. On every such input the fault does not leave the handler: it
    returns status ERROR and an ErrorDoc with reason text [Exception - ]
    followed by the fault's message, reason code DDB_ERROR (table item) or
    KINESIS_ERROR (stream record) and, as identifier and partition key, the
    string the generator returned for this call, whichever string that is:
    the generated string is taken as it is and is not compared with the
    values of the Key Mapping. *)
Theorem fault_becomes_error_outcome
    (tableName segmentNumber item : pyval)
    (streamArn shardId eventId eventName identityPrincipalId identityType
     sequenceNumber sizeBytes streamViewType approximateCreationDateTime
     keys oldImage newImage : pyval) :
  ((forall ex,
      parseDynamoDBItem_try tableName segmentNumber keys item = Raise ex ->
      derivable keys = false \/ payload_kind item = Unsized)
   /\ (derivable keys = false \/ payload_kind item = Unsized ->
       exists ex,
         parseDynamoDBItem_try tableName segmentNumber keys item = Raise ex
         /\ forall docIdUUID,
              (parseDynamoDBItem docIdUUID tableName segmentNumber keys
                 item).1
              = mkParseDocumentResult PNone
                  (IsErrorDoc
                     (mkErrorDoc (PStr docIdUUID) "DDB_ERROR" (PStr docIdUUID)
                        (PDict []) (PDict [])
                        (PDict [("keys", keys)]) (PDict [("keys", keys)])
                        ("Exception - " +:+ str_of_exn ex)))
                  "ERROR"))
  /\ ((forall ex,
         parseRecord_try streamArn shardId eventId eventName
           identityPrincipalId identityType sequenceNumber sizeBytes
           streamViewType approximateCreationDateTime keys oldImage newImage
         = Raise ex ->
         derivable keys = false \/ payload_kind newImage = Unsized)
      /\ (derivable keys = false \/ payload_kind newImage = Unsized ->
          exists ex,
            parseRecord_try streamArn shardId eventId eventName
              identityPrincipalId identityType sequenceNumber sizeBytes
              streamViewType approximateCreationDateTime keys oldImage
              newImage
            = Raise ex
            /\ forall docIdUUID,
                 (parseRecord docIdUUID streamArn shardId eventId eventName
                    identityPrincipalId identityType sequenceNumber sizeBytes
                    streamViewType approximateCreationDateTime keys oldImage
                    newImage).1
                 = mkParseDocumentResult PNone
                     (IsErrorDoc
                        (mkErrorDoc (PStr docIdUUID) "KINESIS_ERROR"
                           (PStr docIdUUID) (PDict []) (PDict [])
                           (PDict [("sequenceNumber", sequenceNumber)])
                           (PDict [("sequenceNumber", sequenceNumber)])
                           ("Exception - " +:+ str_of_exn ex)))
                     "ERROR")).
Proof.
  split.
  - destruct (parseDynamoDBItem_try_fault tableName segmentNumber keys item)
      as [Hfault Honly].
    split; [exact Honly |]. intros Hinput.
    destruct (Hfault Hinput) as [ex Hex]. exists ex. split; [done |].
    intros docIdUUID. unfold parseDynamoDBItem. by rewrite Hex.
  - destruct (parseRecord_try_fault streamArn shardId eventId eventName
                identityPrincipalId identityType sequenceNumber sizeBytes
                streamViewType approximateCreationDateTime keys oldImage
                newImage) as [Hfault Honly].
    split; [exact Honly |]. intros Hinput.
    destruct (Hfault Hinput) as [ex Hex]. exists ex. split; [done |].
    intros docIdUUID. unfold parseRecord. by rewrite Hex.
Qed.

(** C7 (as amended): two calls of [parseRecord] that differ in oldImage, and
    in the string each draws from the generator, return results with the same
    status and the same class of document, equal in every field but, for two
    ErrorDocs of the except branch, the identifier and the partition key,
    which are each call's own generated string; they log the same records.
    The two results are equal outright when the two generated strings are,
    and on every input on which no fault is raised. *)
Theorem parseRecord_oldImage_has_no_effect
    (docIdUUID docIdUUID' : string)
    (streamArn shardId eventId eventName identityPrincipalId identityType
     sequenceNumber sizeBytes streamViewType approximateCreationDateTime
     keys oldImage oldImage' newImage : pyval) :
  (docIdUUID = docIdUUID' ->
   parseRecord docIdUUID streamArn shardId eventId eventName
     identityPrincipalId identityType sequenceNumber sizeBytes streamViewType
     approximateCreationDateTime keys oldImage newImage
   = parseRecord docIdUUID' streamArn shardId eventId eventName
       identityPrincipalId identityType sequenceNumber sizeBytes
       streamViewType approximateCreationDateTime keys oldImage' newImage)
  /\ (derivable keys = true -> payload_kind newImage ≠ Unsized ->
      parseRecord docIdUUID streamArn shardId eventId eventName
        identityPrincipalId identityType sequenceNumber sizeBytes
        streamViewType approximateCreationDateTime keys oldImage newImage
      = parseRecord docIdUUID' streamArn shardId eventId eventName
          identityPrincipalId identityType sequenceNumber sizeBytes
          streamViewType approximateCreationDateTime keys oldImage' newImage)
  /\ status
       (parseRecord docIdUUID streamArn shardId eventId eventName
          identityPrincipalId identityType sequenceNumber sizeBytes
          streamViewType approximateCreationDateTime keys oldImage newImage).1
     = status
         (parseRecord docIdUUID' streamArn shardId eventId eventName
            identityPrincipalId identityType sequenceNumber sizeBytes
            streamViewType approximateCreationDateTime keys oldImage'
            newImage).1
  /\ same_but_identifier
       (document
          (parseRecord docIdUUID streamArn shardId eventId eventName
             identityPrincipalId identityType sequenceNumber sizeBytes
             streamViewType approximateCreationDateTime keys oldImage
             newImage).1)
       (document
          (parseRecord docIdUUID' streamArn shardId eventId eventName
             identityPrincipalId identityType sequenceNumber sizeBytes
             streamViewType approximateCreationDateTime keys oldImage'
             newImage).1)
  /\ (parseRecord docIdUUID streamArn shardId eventId eventName
        identityPrincipalId identityType sequenceNumber sizeBytes
        streamViewType approximateCreationDateTime keys oldImage newImage).2
     = (parseRecord docIdUUID' streamArn shardId eventId eventName
          identityPrincipalId identityType sequenceNumber sizeBytes
          streamViewType approximateCreationDateTime keys oldImage'
          newImage).2.
Proof.
  destruct (parseRecord_try_fault streamArn shardId eventId eventName
              identityPrincipalId identityType sequenceNumber sizeBytes
              streamViewType approximateCreationDateTime keys oldImage
              newImage) as [_ Honly].
  split; [by intros -> |].
  unfold parseRecord.
  change (parseRecord_try streamArn shardId eventId eventName
            identityPrincipalId identityType sequenceNumber sizeBytes
            streamViewType approximateCreationDateTime keys oldImage' newImage)
    with (parseRecord_try streamArn shardId eventId eventName
            identityPrincipalId identityType sequenceNumber sizeBytes
            streamViewType approximateCreationDateTime keys oldImage newImage).
  destruct (parseRecord_try streamArn shardId eventId eventName
              identityPrincipalId identityType sequenceNumber sizeBytes
              streamViewType approximateCreationDateTime keys oldImage
              newImage) as [[r log]|ex].
  - split; [done |]. split; [done |]. split; [| done].
    cbn. by destruct (document r).
  - split.
    + intros Hkeys Hpayload. destruct (Honly ex eq_refl) as [Hk|Hp].
      * by rewrite Hkeys in Hk.
      * done.
    + cbn. by repeat split.
Qed.

(** X7: what every result of the table-item handler has, on any input. The
    document is a Document or an ErrorDoc, never a SkipDoc, and the status is
    never SKIP (though the log text of the empty record says so); identifier
    and partition key are one value; an ErrorDoc carries the mapping of
    [keys] to the argument as it was given, mapping or not, in both context
    slots, and its two other mappings are empty. *)
Theorem parseDynamoDBItem_shape
    (docIdUUID : string) (tableName segmentNumber keys item : pyval) :
  table_item_shape keys
    (document (parseDynamoDBItem docIdUUID tableName segmentNumber keys item).1)
  /\ status (parseDynamoDBItem docIdUUID tableName segmentNumber keys item).1
     ≠ "SKIP"
  /\ partitionKey_of
       (document
          (parseDynamoDBItem docIdUUID tableName segmentNumber keys item).1)
     = identifier_of
         (document
            (parseDynamoDBItem docIdUUID tableName segmentNumber keys item).1).
Proof.
  unfold parseDynamoDBItem, parseDynamoDBItem_try.
  destruct (derive_docId keys) as [docId|ex]; cbn [Py.bind].
  - destruct (is_none_or_empty item) as [[|]|ex]; cbn; by repeat split.
  - cbn. by repeat split.
Qed.

(** X8: what every result of the stream-record handler has, on any input:
    identifier and partition key are one value, and a SkipDoc or ErrorDoc
    carries the mapping of [sequenceNumber] to the argument in both context
    slots, with the reason code of its class. *)
Theorem parseRecord_shape
    (docIdUUID : string)
    (streamArn shardId eventId eventName identityPrincipalId identityType
     sequenceNumber sizeBytes streamViewType approximateCreationDateTime
     keys oldImage newImage : pyval) :
  stream_record_shape sequenceNumber
    (document
       (parseRecord docIdUUID streamArn shardId eventId eventName
          identityPrincipalId identityType sequenceNumber sizeBytes
          streamViewType approximateCreationDateTime keys oldImage newImage).1)
  /\ partitionKey_of
       (document
          (parseRecord docIdUUID streamArn shardId eventId eventName
             identityPrincipalId identityType sequenceNumber sizeBytes
             streamViewType approximateCreationDateTime keys oldImage
             newImage).1)
     = identifier_of
         (document
            (parseRecord docIdUUID streamArn shardId eventId eventName
               identityPrincipalId identityType sequenceNumber sizeBytes
               streamViewType approximateCreationDateTime keys oldImage
               newImage).1).
Proof.
  unfold parseRecord, parseRecord_try.
  destruct (derive_docId keys) as [docId|ex]; cbn [Py.bind].
  - destruct (is_none_or_empty newImage) as [[|]|ex]; cbn; by repeat split.
  - cbn. by repeat split.
Qed.

(** X9: the two handlers classify alike. Given one generated identifier,
    one [keys] and one payload, they return the same Document; or the empty
    record ErrorDoc and the delete record SkipDoc under one identifier; or
    two ErrorDocs of the except branch with one reason text and one
    identifier. *)
Theorem handlers_classify_alike
    (docIdUUID : string) (tableName segmentNumber : pyval)
    (streamArn shardId eventId eventName identityPrincipalId identityType
     sequenceNumber sizeBytes streamViewType approximateCreationDateTime
     keys oldImage payload : pyval) :
  same_classification
    (parseDynamoDBItem docIdUUID tableName segmentNumber keys payload).1
    (parseRecord docIdUUID streamArn shardId eventId eventName
       identityPrincipalId identityType sequenceNumber sizeBytes
       streamViewType approximateCreationDateTime keys oldImage payload).1.
Proof.
  unfold same_classification, parseDynamoDBItem, parseDynamoDBItem_try,
    parseRecord, parseRecord_try.
  destruct (derive_docId keys) as [docId|ex]; cbn [Py.bind].
  - destruct (is_none_or_empty payload) as [[|]|ex]; cbn; by eauto.
  - cbn. by eauto.
Qed.

(** X10: of its thirteen arguments, [parseRecord] lets three decide the
    result: [keys], [newImage] and [sequenceNumber] (beside the generated
    identifier). The event name and the stream view type in particular are
    not looked at: a REMOVE event with a newImage is a SUCCESS, an INSERT
    without one a SKIP. Of these three, [sequenceNumber] does not enter a
    Document. *)
Theorem parseRecord_deciding_arguments
    (docIdUUID : string)
    (streamArn shardId eventId eventName identityPrincipalId identityType
     sequenceNumber sizeBytes streamViewType approximateCreationDateTime
     streamArn' shardId' eventId' eventName' identityPrincipalId'
     identityType' sequenceNumber' sizeBytes' streamViewType'
     approximateCreationDateTime' keys oldImage oldImage' newImage : pyval) :
  (parseRecord docIdUUID streamArn shardId eventId eventName
     identityPrincipalId identityType sequenceNumber sizeBytes streamViewType
     approximateCreationDateTime keys oldImage newImage).1
  = (parseRecord docIdUUID streamArn' shardId' eventId' eventName'
       identityPrincipalId' identityType' sequenceNumber sizeBytes'
       streamViewType' approximateCreationDateTime' keys oldImage'
       newImage).1
  /\ (status
        (parseRecord docIdUUID streamArn shardId eventId eventName
           identityPrincipalId identityType sequenceNumber sizeBytes
           streamViewType approximateCreationDateTime keys oldImage
           newImage).1
      = "SUCCESS" ->
      (parseRecord docIdUUID streamArn shardId eventId eventName
         identityPrincipalId identityType sequenceNumber sizeBytes
         streamViewType approximateCreationDateTime keys oldImage newImage).1
      = (parseRecord docIdUUID streamArn' shardId' eventId' eventName'
           identityPrincipalId' identityType' sequenceNumber' sizeBytes'
           streamViewType' approximateCreationDateTime' keys oldImage'
           newImage).1).
Proof.
  unfold parseRecord, parseRecord_try.
  destruct (derive_docId keys) as [docId|ex]; cbn [Py.bind].
  - destruct (is_none_or_empty newImage) as [[|]|ex]; cbn; by split.
  - cbn. by split.
Qed.

(** X11: the level of the log. The table-item handler writes one record on
    every call, at level ERROR exactly when it returns the empty record, and
    at level DEBUG also when it returns the ErrorDoc of the except branch.
    The stream-record handler writes a record of level ERROR exactly when it
    returns SKIP; its ERROR results are logged at level DEBUG. *)
Theorem handlers_log_levels
    (docIdUUID : string) (tableName segmentNumber item : pyval)
    (streamArn shardId eventId eventName identityPrincipalId identityType
     sequenceNumber sizeBytes streamViewType approximateCreationDateTime
     keys oldImage newImage : pyval) :
  length (parseDynamoDBItem docIdUUID tableName segmentNumber keys item).2 = 1
  /\ (logged_error
        (parseDynamoDBItem docIdUUID tableName segmentNumber keys item).2
      = true
      <-> exists e,
            document
              (parseDynamoDBItem docIdUUID tableName segmentNumber keys
                 item).1
            = IsErrorDoc e
            /\ err_reasonText e = "empty record")
  /\ (logged_error
        (parseRecord docIdUUID streamArn shardId eventId eventName
           identityPrincipalId identityType sequenceNumber sizeBytes
           streamViewType approximateCreationDateTime keys oldImage
           newImage).2
      = true
      <-> status
            (parseRecord docIdUUID streamArn shardId eventId eventName
               identityPrincipalId identityType sequenceNumber sizeBytes
               streamViewType approximateCreationDateTime keys oldImage
               newImage).1
          = "SKIP").
Proof.
  unfold parseDynamoDBItem, parseDynamoDBItem_try, parseRecord,
    parseRecord_try.
  destruct (derive_docId keys) as [docId|ex]; cbn [Py.bind].
  - split; [by destruct (is_none_or_empty item) as [[|]|ex] |]. split.
    + destruct (is_none_or_empty item) as [[|]|ex]; cbn.
      * split; [eauto | done].
      * split; [done | by intros (e & [=] & _)].
      * split; [done |]. intros (e & [= <-] & He).
        by apply exception_text_not_empty_record in He.
    + destruct (is_none_or_empty newImage) as [[|]|ex]; cbn; by split.
  - cbn. split; [done |]. split; [| by split].
    split; [done |]. intros (e & [= <-] & He).
    by apply exception_text_not_empty_record in He.
Qed.

(** * Further properties of [to_map] *)

Lemma pairs_of_lookup (l : list string) :
  forall (j : nat) (k v : string),
    pairs_of l !! j = Some (k, v)
    <-> l !! (2 * j) = Some k /\ l !! (2 * j + 1) = Some v.
Proof.
  induction l as [| k0 | k0 v0 rest IH] using pairs_ind; intros j k v.
  - split; [done | by intros [? _]].
  - split; [done |]. intros [_ Hv].
    replace (2 * j + 1) with (S (2 * j)) in Hv by lia. done.
  - destruct j as [|j].
    + cbn. split; [by intros [= -> ->] | by intros [[= ->] [= ->]]].
    + replace (2 * S j) with (S (S (2 * j))) by lia.
      cbn [pairs_of lookup list_lookup Nat.add]. apply IH.
Qed.

Lemma pairs_of_length (l : list string) :
  length (pairs_of l) = Nat.div2 (length l).
Proof.
  induction l as [| k0 | k0 v0 rest IH] using pairs_ind; [done | done |].
  cbn. by rewrite IH.
Qed.

Lemma pairs_of_app (l l' : list string) :
  Nat.even (length l) = true -> pairs_of (l ++ l') = pairs_of l ++ pairs_of l'.
Proof.
  induction l as [| k0 | k0 v0 rest IH] using pairs_ind; [done | done |].
  intros Heven. cbn. f_equal. by apply IH.
Qed.

Lemma store_all_cons (k v : string) (kvs : list (string * string))
    (m : gmap string string) :
  store_all ((k, v) :: kvs) m = store_all kvs (<[k := v]> m).
Proof. done. Qed.

(** An entry of the dict comes from a stored pair or was there before, and
    the keys of the dict are those of the pairs and those it had. *)
Lemma store_all_lookup_Some (kvs : list (string * string)) (k v : string) :
  forall m : gmap string string,
    store_all kvs m !! k = Some v -> (k, v) ∈ kvs \/ m !! k = Some v.
Proof.
  induction kvs as [|[k' v'] kvs IH]; intros m Hk; [by right |].
  cbn in Hk. apply IH in Hk as [Hin|Hk].
  - left. by apply list_elem_of_further.
  - apply lookup_insert_Some in Hk as [[-> ->]|[_ Hk]].
    + left. apply list_elem_of_here.
    + by right.
Qed.

Lemma store_all_is_Some (kvs : list (string * string)) (k : string) :
  forall m : gmap string string,
    is_Some (store_all kvs m !! k) <-> k ∈ kvs.*1 \/ is_Some (m !! k).
Proof.
  induction kvs as [|[k' v'] kvs IH]; intros m.
  - cbn. split; [by right | intros [Hk|Hk]; [by apply elem_of_nil in Hk | done]].
  - rewrite store_all_cons, IH, lookup_insert_is_Some', fmap_cons.
    rewrite elem_of_cons. cbn [fst].
    split; [intros [?|[->|?]] | intros [[->|?]|?]]; auto.
Qed.

Lemma store_all_size (kvs : list (string * string)) :
  forall m : gmap string string,
    size (store_all kvs m) ≤ length kvs + size m
    /\ (NoDup kvs.*1 -> (forall k, k ∈ kvs.*1 -> m !! k = None) ->
        size (store_all kvs m) = length kvs + size m).
Proof.
  induction kvs as [|[k' v'] kvs IH]; intros m; [done |].
  rewrite store_all_cons, fmap_cons. cbn [length fst].
  destruct (IH (<[k' := v']> m)) as [Hle Heq]. split.
  - pose proof (map_size_insert k' v' m) as Hsize.
    destruct (m !! k'); cbn in Hsize; lia.
  - intros [Hk' Hnodup]%NoDup_cons Hfresh. rewrite Heq.
    + rewrite map_size_insert_None; [cbn; lia |].
      apply Hfresh, list_elem_of_here.
    + done.
    + intros k Hk. rewrite lookup_insert_ne by (by intros ->).
      by apply Hfresh, list_elem_of_further.
Qed.

Lemma to_map_dict (arr : list string) : (to_map arr).1 = spec_to_map arr.
Proof.
  unfold to_map. rewrite to_map_loop_all.
  by destruct (Nat.odd (length (tail arr))).
Qed.

Lemma to_map_printed (arr : list string) :
  (to_map arr).2
  = if Nat.even (length arr) && negb (Nat.eqb (length arr) 0)
    then [mkPrinted "list index out of range" arr] else [].
Proof.
  unfold to_map. rewrite to_map_loop_all.
  destruct arr as [|x arr]; [done |]. cbn [tail length Nat.eqb negb].
  rewrite andb_true_r, Nat.even_succ.
  by destruct (Nat.odd (length arr)).
Qed.

(** X12: the entries of the dict, by the indices of the list. Every entry
    key to value of [to_map arr] stands in the list as a key at an odd index
    with its value at the next index, and a string is a key of the dict
    exactly when it stands at an odd index that is not the last one: no other
    key is there, so a header that does not name a field leaves the lookup of
    that field empty. *)
Theorem to_map_entries (arr : list string) (k : string) :
  (forall v, (to_map arr).1 !! k = Some v ->
     exists j, arr !! (2 * j + 1) = Some k /\ arr !! (2 * j + 2) = Some v)
  /\ (is_Some ((to_map arr).1 !! k)
      <-> exists j v, arr !! (2 * j + 1) = Some k
                      /\ arr !! (2 * j + 2) = Some v).
Proof.
  rewrite to_map_dict. unfold spec_to_map.
  assert (forall j k v,
            pairs_of (tail arr) !! j = Some (k, v)
            <-> arr !! (2 * j + 1) = Some k /\ arr !! (2 * j + 2) = Some v)
    as Hpairs.
  { intros j k0 v0. rewrite pairs_of_lookup, !lookup_tail.
    by replace (S (2 * j)) with (2 * j + 1) by lia;
       replace (S (2 * j + 1)) with (2 * j + 2) by lia. }
  split.
  - intros v [Hin|Hempty]%store_all_lookup_Some; [| done].
    apply list_elem_of_lookup in Hin as [j Hj]. exists j. by apply Hpairs.
  - rewrite store_all_is_Some. split.
    + intros [Hk|Hk]; [| by destruct Hk].
      apply list_elem_of_fmap in Hk as ([k0 v0] & -> & Hin).
      apply list_elem_of_lookup in Hin as [j Hj].
      exists j, v0. by apply Hpairs.
    + intros (j & v & Hj). left. apply Hpairs in Hj.
      apply list_elem_of_fmap. exists (k, v). split; [done |].
      apply list_elem_of_lookup. by exists j.
Qed.

(** X13: the size of the dict. It has at most as many entries as there
    are pairs among the elements behind the head of the list, half the length
    of [arr[1:]] rounded down (none for the empty list), and exactly as many
    when no key is repeated among the pairs. *)
Theorem to_map_size (arr : list string) :
  size (to_map arr).1 ≤ Nat.div2 (length (tail arr))
  /\ (NoDup (pairs_of (tail arr)).*1 ->
      size (to_map arr).1 = Nat.div2 (length (tail arr))).
Proof.
  rewrite to_map_dict. unfold spec_to_map.
  destruct (store_all_size (pairs_of (tail arr)) ∅) as [Hle Heq].
  rewrite pairs_of_length, map_size_empty, Nat.add_0_r in Hle, Heq.
  split; [done |]. intros Hnodup. by apply Heq.
Qed.

(** X14: the dict is empty exactly for the lists of at most two elements:
    no list, the head alone, or the head and a key without value. *)
Theorem to_map_empty_iff (arr : list string) :
  (to_map arr).1 = ∅ <-> length arr ≤ 2.
Proof.
  split.
  - rewrite to_map_dict. intros Hempty.
    destruct arr as [|x [|k [|v rest]]]; cbn; try lia.
    exfalso. apply (lookup_empty_is_Some (M := gmap string) (A := string) k).
    rewrite <- Hempty. unfold spec_to_map. apply store_all_is_Some.
    left. cbn. apply list_elem_of_here.
  - intros Hlen. rewrite to_map_dict.
    destruct arr as [|x [|k [|v rest]]]; try done. cbn in Hlen. lia.
Qed.

(** X15: one more pair. For a list of odd length (the head and complete
    pairs), the list with a key and a value appended gives the dict of the
    list with the value stored under the key, and nothing is printed for
    either list. *)
Theorem to_map_append_pair (arr : list string) (k v : string) :
  Nat.odd (length arr) = true ->
  to_map (arr ++ [k; v]) = (<[k := v]> (to_map arr).1, [])
  /\ (to_map arr).2 = [].
Proof.
  intros Hodd.
  pose proof (to_map_printed arr) as Hprint.
  pose proof (to_map_printed (arr ++ [k; v])) as Hprint'.
  assert (Nat.even (length arr) = false) as Heven.
  { by rewrite <- Nat.negb_odd, Hodd. }
  rewrite Heven in Hprint. cbn in Hprint.
  rewrite length_app in Hprint'. cbn [length] in Hprint'.
  replace (length arr + 2) with (S (S (length arr))) in Hprint' by lia.
  rewrite !Nat.even_succ_succ, Heven in Hprint'. cbn in Hprint'.
  split; [| done].
  rewrite (surjective_pairing (to_map (arr ++ [k; v]))), Hprint'. f_equal.
  rewrite !to_map_dict. unfold spec_to_map.
  destruct arr as [|x arr]; [done |].
  cbn [tail app]. cbn [length] in Hodd. rewrite Nat.odd_succ in Hodd.
  rewrite pairs_of_app by done.
  unfold store_all. by rewrite foldl_app.
Qed.

(** * A further property of the reducer *)

(** X16: the reducer on any list of readUris. On the empty list it raises
    IndexError, at [readUris[0]], before a session is opened and before
    anything is read or written. On every other list, the one of a single
    readUri included, it ends in the call of [writeSparkDataframe], and that
    call is the one it ends in on the list of the first readUri alone: the
    branch in which [dataframe] is still None behind the loop is never
    reached. *)
Theorem reducer_on_any_list {engine : SparkEngine}
    (AWS_REGION appName readDestination : string) (readUris : list string)
    (readFormat : string) (readOptions : pyval)
    (writeDestination writeUri writeFormat writeMode : string)
    (writeOptions : pyval) (spark_credentials_secret_arn : string) :
  (readUris = [] ->
   reducer AWS_REGION appName readDestination readUris readFormat readOptions
     writeDestination writeUri writeFormat writeMode writeOptions
     spark_credentials_secret_arn
   = Raise (IndexError "list index out of range"))
  /\ (forall uri0 uris, readUris = uri0 :: uris ->
        reducer AWS_REGION appName readDestination readUris readFormat
          readOptions writeDestination writeUri writeFormat writeMode
          writeOptions spark_credentials_secret_arn
        = reducer AWS_REGION appName readDestination [uri0] readFormat
            readOptions writeDestination writeUri writeFormat writeMode
            writeOptions spark_credentials_secret_arn
        /\ exists call,
             reducer AWS_REGION appName readDestination readUris readFormat
               readOptions writeDestination writeUri writeFormat writeMode
               writeOptions spark_credentials_secret_arn
             = Ok call).
Proof.
  split; [by intros -> |]. intros uri0 uris ->.
  unfold reducer, first_uri. cbn [lookup list_lookup Py.bind].
  rewrite !reducer_loop_first. by eauto.
Qed.

(** * The further properties at concrete inputs *)

Lemma derive_docId_leading_none_witness :
  derive_docId (PDict ([("pk", PNone)] ++ [("sk", PStr "B"); ("lk", PStr "C")]))
  = derive_docId (PDict [("sk", PStr "B"); ("lk", PStr "C")]).
Proof.
  exact (derive_docId_leading_none [("pk", PNone)]
           [("sk", PStr "B"); ("lk", PStr "C")] eq_refl).
Defined.

(** No mapping for [keys], and no item. *)
Lemma key_fault_precedes_payload_guard_witness :
  exists msg,
    (parseDynamoDBItem "123e4567-e89b-42d3-a456-426614174000" (PStr "table")
       (PInt 0) PNone PNone).1
    = mkParseDocumentResult PNone
        (IsErrorDoc
           (mkErrorDoc (PStr "123e4567-e89b-42d3-a456-426614174000")
              "DDB_ERROR" (PStr "123e4567-e89b-42d3-a456-426614174000")
              (PDict []) (PDict [])
              (PDict [("keys", PNone)]) (PDict [("keys", PNone)])
              ("Exception - " +:+ msg)))
        "ERROR"
    /\ (parseRecord "123e4567-e89b-42d3-a456-426614174000"
          (PStr "arn") (PStr "shard") (PStr "event") (PStr "REMOVE")
          (PStr "principal") (PStr "type") (PStr "100") (PInt 12)
          (PStr "KEYS_ONLY") (PInt 1700000000) PNone PNone PNone).1
       = mkParseDocumentResult PNone
           (IsErrorDoc
              (mkErrorDoc (PStr "123e4567-e89b-42d3-a456-426614174000")
                 "KINESIS_ERROR" (PStr "123e4567-e89b-42d3-a456-426614174000")
                 (PDict []) (PDict [])
                 (PDict [("sequenceNumber", PStr "100")])
                 (PDict [("sequenceNumber", PStr "100")])
                 ("Exception - " +:+ msg)))
           "ERROR".
Proof.
  destruct (key_fault_precedes_payload_guard PNone eq_refl)
    as (msg & Hitem & Hrecord).
  exists msg. split; [apply Hitem | apply Hrecord].
Defined.

Lemma to_map_append_pair_witness :
  to_map (["WARC/1.0"; "WARC-Type"; "conversion"] ++ ["Content-Length"; "382"])
  = (<["Content-Length" := "382"]>
       (to_map ["WARC/1.0"; "WARC-Type"; "conversion"]).1, [])
  /\ (to_map ["WARC/1.0"; "WARC-Type"; "conversion"]).2 = [].
Proof.
  exact (to_map_append_pair ["WARC/1.0"; "WARC-Type"; "conversion"]
           "Content-Length" "382" eq_refl).
Defined.

(** * The amended claims at concrete inputs *)

(** The generated string is not compared with the key values. With a number
    as first key value and a string behind it the loop raises in both
    handlers; when the generator returns that very string, the identifier of
    the ErrorDoc is one of the values of the Key Mapping. *)
Lemma fallback_identifier_equals_key_value :
  (exists ex,
     parseDynamoDBItem_try (PStr "table") (PInt 0)
       (PDict [("pk", PInt 5);
               ("sk", PStr "123e4567-e89b-42d3-a456-426614174000")])
       (PDict [("x", PStr "1")])
     = Raise ex)
  /\ status
       (parseDynamoDBItem "123e4567-e89b-42d3-a456-426614174000"
          (PStr "table") (PInt 0)
          (PDict [("pk", PInt 5);
                  ("sk", PStr "123e4567-e89b-42d3-a456-426614174000")])
          (PDict [("x", PStr "1")])).1
     = "ERROR"
  /\ identifier_of
       (document
          (parseDynamoDBItem "123e4567-e89b-42d3-a456-426614174000"
             (PStr "table") (PInt 0)
             (PDict [("pk", PInt 5);
                     ("sk", PStr "123e4567-e89b-42d3-a456-426614174000")])
             (PDict [("x", PStr "1")])).1)
     ∈ mapping_values
         (PDict [("pk", PInt 5);
                 ("sk", PStr "123e4567-e89b-42d3-a456-426614174000")])
  /\ identifier_of
       (document
          (parseRecord "123e4567-e89b-42d3-a456-426614174000"
             (PStr "arn") (PStr "shard") (PStr "event") (PStr "MODIFY")
             (PStr "principal") (PStr "type") (PStr "101") (PInt 12)
             (PStr "NEW_AND_OLD_IMAGES") (PInt 1700000000)
             (PDict [("pk", PInt 5);
                     ("sk", PStr "123e4567-e89b-42d3-a456-426614174000")])
             (PDict [("x", PStr "0")]) (PDict [("x", PStr "1")])).1)
     ∈ mapping_values
         (PDict [("pk", PInt 5);
                 ("sk", PStr "123e4567-e89b-42d3-a456-426614174000")]).
Proof.
  split; [by eexists |]. split; [done |].
  split; cbn; apply list_elem_of_further, list_elem_of_here.
Qed.

Lemma fault_becomes_error_outcome_witness :
  exists ex,
    parseDynamoDBItem_try (PStr "table") (PInt 0)
      (PDict [("pk", PInt 5); ("sk", PStr "A")]) (PDict [("x", PStr "1")])
    = Raise ex
    /\ forall docIdUUID,
         (parseDynamoDBItem docIdUUID (PStr "table") (PInt 0)
            (PDict [("pk", PInt 5); ("sk", PStr "A")])
            (PDict [("x", PStr "1")])).1
         = mkParseDocumentResult PNone
             (IsErrorDoc
                (mkErrorDoc (PStr docIdUUID) "DDB_ERROR" (PStr docIdUUID)
                   (PDict []) (PDict [])
                   (PDict [("keys", PDict [("pk", PInt 5); ("sk", PStr "A")])])
                   (PDict [("keys", PDict [("pk", PInt 5); ("sk", PStr "A")])])
                   ("Exception - " +:+ str_of_exn ex)))
             "ERROR".
Proof.
  exact (proj2
           (proj1
              (fault_becomes_error_outcome (PStr "table") (PInt 0)
                 (PDict [("x", PStr "1")])
                 (PStr "arn") (PStr "shard") (PStr "event") (PStr "MODIFY")
                 (PStr "principal") (PStr "type") (PStr "101") (PInt 12)
                 (PStr "NEW_AND_OLD_IMAGES") (PInt 1700000000)
                 (PDict [("pk", PInt 5); ("sk", PStr "A")])
                 (PDict [("x", PStr "0")]) (PDict [("x", PStr "1")])))
           (or_introl eq_refl)).
Defined.

(** Two calls on [keys] None that differ in oldImage alone: each ends in the
    except branch with the string of its own draw from the generator, so the
    two results differ in the identifier. *)
Lemma parseRecord_fallback_identifiers_differ :
  identifier_of
    (document
       (parseRecord "123e4567-e89b-42d3-a456-426614174000"
          (PStr "arn") (PStr "shard") (PStr "event") (PStr "MODIFY")
          (PStr "principal") (PStr "type") (PStr "101") (PInt 12)
          (PStr "NEW_AND_OLD_IMAGES") (PInt 1700000000)
          PNone (PDict [("x", PStr "0")]) (PDict [("x", PStr "1")])).1)
  ≠ identifier_of
      (document
         (parseRecord "9b2e5c7a-1f4d-4c3b-8a6e-0d2f4b6a8c1e"
            (PStr "arn") (PStr "shard") (PStr "event") (PStr "MODIFY")
            (PStr "principal") (PStr "type") (PStr "101") (PInt 12)
            (PStr "NEW_AND_OLD_IMAGES") (PInt 1700000000)
            PNone (PDict [("x", PStr "2")]) (PDict [("x", PStr "1")])).1)
  /\ (parseRecord "123e4567-e89b-42d3-a456-426614174000"
        (PStr "arn") (PStr "shard") (PStr "event") (PStr "MODIFY")
        (PStr "principal") (PStr "type") (PStr "101") (PInt 12)
        (PStr "NEW_AND_OLD_IMAGES") (PInt 1700000000)
        PNone (PDict [("x", PStr "0")]) (PDict [("x", PStr "1")])).1
     ≠ (parseRecord "9b2e5c7a-1f4d-4c3b-8a6e-0d2f4b6a8c1e"
          (PStr "arn") (PStr "shard") (PStr "event") (PStr "MODIFY")
          (PStr "principal") (PStr "type") (PStr "101") (PInt 12)
          (PStr "NEW_AND_OLD_IMAGES") (PInt 1700000000)
          PNone (PDict [("x", PStr "2")]) (PDict [("x", PStr "1")])).1.
Proof. split; discriminate. Qed.
